(** * Auto-Review Responder: the response-generation pipeline of backend/main.py

    A shallow embedding of the tier table, the usage check, the prompt and
    fallback construction, and the /api/generate and /api/upgrade endpoints,
    followed by the properties the specification states about them.

    Conventions.
    - Python [int] is [Z]; Python [str] is a Rocq [string] holding the UTF-8
      bytes of the text.
    - [users_db] is a [gmap] from user ids to profiles.
    - An instant is a [Z] number of microseconds (the resolution of
      [datetime]); the ISO text stored in a profile is represented by what
      [datetime.fromisoformat] makes of it.
    - A raised exception is a value of [exn]; every function that can raise
      returns a [result]. State (the store, the clock, the calls made to the
      provider) is passed explicitly in a [World].
    - The pieces that live outside the repository are parameters of the
      model: the clock behind [datetime.now()], the language-model provider,
      [json.loads] and pydantic's validation of the [responses] field.
    - Not modelled: what the two [print] calls write, and the upper end of
      the range of [datetime]. *)

From Stdlib Require Import ZArith Ascii String List Lia DecimalString.
From stdpp Require Import base option gmap strings.

Set Warnings "-register-all".
Local Open Scope Z_scope.
Local Open Scope string_scope.

(** ** Python values *)

(** What [json.loads] can return. A float keeps the text of its literal. *)
Inductive json : Type :=
| JNull
| JBool (b : bool)
| JInt (n : Z)
| JFloat (literal : string)
| JStr (s : string)
| JArr (items : list json)
| JObj (fields : list (string * json)).

(** A Python [dict] with string keys, in insertion order, keys distinct. *)
Abbreviation dict := (list (string * json)).

(** [d.get(key)]. *)
Fixpoint dict_get (key : string) (d : dict) : option json :=
  match d with
  | [] => None
  | (k, v) :: rest => if String.eqb k key then Some v else dict_get key rest
  end.

(** [type(v).__name__] for a parsed value. *)
Definition type_name (v : json) : string :=
  match v with
  | JNull => "NoneType"
  | JBool _ => "bool"
  | JInt _ => "int"
  | JFloat _ => "float"
  | JStr _ => "str"
  | JArr _ => "list"
  | JObj _ => "dict"
  end.

(** ** Exceptions *)

Inductive exn_class : Type :=
| JSONDecodeError
| KeyError
| ValueError
| TypeError
| AttributeError
| ValidationError
| OtherException (name : string).

(** An exception raised inside the [try] block of generate_ai_responses:
    its class and the text [str(e)] gives. *)
Record py_error : Type := PyError { err_class : exn_class; err_str : string }.

(** What leaves a function: an [HTTPException] raised by the code, or an
    exception of another class that no handler catches (the framework answers
    it with status 500). [arg] is the argument the exception was built with:
    the missing key of a [KeyError], the message of the others. *)
Inductive exn : Type :=
| HTTPException (status_code : Z) (detail : string)
| Unhandled (cls : exn_class) (arg : string).

Inductive result (E A : Type) : Type :=
| Ok (a : A)
| Raise (e : E).
Arguments Ok {E A} a.
Arguments Raise {E A} e.

Definition status_of (e : exn) : Z :=
  match e with
  | HTTPException s _ => s
  | Unhandled _ _ => 500
  end.

Definition is_JSONDecodeError (c : exn_class) : bool :=
  match c with JSONDecodeError => true | _ => false end.

(** ** Text helpers *)

Definition dq : string := String (ascii_of_nat 34) EmptyString.
Definition nl : string := String (ascii_of_nat 10) EmptyString.

(** [str(n)] and [f"{n}"] for an int. *)
Definition str_int (n : Z) : string := NilZero.string_of_int (Z.to_int n).

Definition bytes (l : list nat) : list ascii := map ascii_of_nat l.

Fixpoint starts_with (p s : list ascii) : bool :=
  match p, s with
  | [], _ => true
  | _ :: _, [] => false
  | a :: p', b :: s' => Ascii.eqb a b && starts_with p' s'
  end.

(** [s.replace(old, new)] for a non-empty [old]: occurrences are found left
    to right and do not overlap. [skip] counts the bytes of a match that are
    still to be dropped. *)
Fixpoint replace_from (old new : list ascii) (skip : nat) (s : list ascii)
  : list ascii :=
  match s with
  | [] => []
  | c :: s' =>
    match skip with
    | S k => replace_from old new k s'
    | O =>
      if starts_with old s
      then new ++ replace_from old new (Nat.pred (length old)) s'
      else c :: replace_from old new O s'
    end
  end.

Definition replace (s old new : string) : string :=
  string_of_list_ascii
    (replace_from (list_ascii_of_string old) (list_ascii_of_string new) O
       (list_ascii_of_string s)).

(** The characters [str.strip()] removes (those with [isspace()] true), as
    UTF-8: U+0009-000D, U+001C-0020, U+0085, U+00A0, U+1680, U+2000-200A,
    U+2028, U+2029, U+202F, U+205F, U+3000. *)
Definition py_whitespace : list (list ascii) :=
  map (fun n => bytes [n]) [9; 10; 11; 12; 13; 28; 29; 30; 31; 32]%nat
  ++ [bytes [194; 133]; bytes [194; 160]; bytes [225; 154; 128]]%nat
  ++ map (fun n => bytes [226; 128; n]%nat) (seq 128 11)
  ++ [bytes [226; 128; 168]; bytes [226; 128; 169]; bytes [226; 128; 175];
      bytes [226; 129; 159]; bytes [227; 128; 128]]%nat.

Definition leading_space (spaces : list (list ascii)) (s : list ascii)
  : option (list ascii) :=
  find (fun w => starts_with w s) spaces.

Fixpoint lstrip_from (spaces : list (list ascii)) (skip : nat) (s : list ascii)
  : list ascii :=
  match s with
  | [] => []
  | _ :: s' =>
    match skip with
    | S k => lstrip_from spaces k s'
    | O =>
      match leading_space spaces s with
      | Some w => lstrip_from spaces (Nat.pred (length w)) s'
      | None => s
      end
    end
  end.

(** [s.strip()]: whitespace is removed at the front, then, reading the text
    backwards, at the end. *)
Definition strip (s : string) : string :=
  let front := lstrip_from py_whitespace O (list_ascii_of_string s) in
  let back := lstrip_from (map (@rev ascii) py_whitespace) O (rev front) in
  string_of_list_ascii (rev back).

(** [x or default] for an optional string: [None] and the empty string are
    both falsy. *)
Definition str_or (x : option string) (default : string) : string :=
  match x with
  | Some s => if String.eqb s "" then default else s
  | None => default
  end.

Definition truthy (x : option string) : bool :=
  match x with
  | Some s => negb (String.eqb s "")
  | None => false
  end.

Definition lines (l : list string) : string := String.concat nl l.

(** ** Data model *)

(** What the text in [usage_reset_date] is to lines 74-76. *)
Inductive reset_text : Type :=
| Blank                (* the empty string: falsy, treated like [None] *)
| Instant (t : Z)      (* fromisoformat reads it as the naive instant [t] *)
| Malformed (msg : string)  (* fromisoformat raises ValueError *)
| Aware (msg : string).     (* read as an offset-aware datetime: comparing it
                               with datetime.now() raises TypeError *)

Record UserProfile : Type := {
  user_id : string;
  business_name : string;
  business_type : string;
  tone : string;
  brand_voice : option string;
  signature : option string;
  subscription_tier : string;
  usage_count : Z;
  usage_reset_date : option reset_text
}.

Record ReviewInput : Type := {
  review_text : string;
  rating : Z;
  reviewer_name : option string;
  platform : string;
  context : option string
}.

Record ResponseOutput : Type := {
  responses : list dict;
  usage_remaining : Z
}.

Definition set_usage_count (n : Z) (u : UserProfile) : UserProfile :=
  {| user_id := user_id u; business_name := business_name u;
     business_type := business_type u; tone := tone u;
     brand_voice := brand_voice u; signature := signature u;
     subscription_tier := subscription_tier u;
     usage_count := n; usage_reset_date := usage_reset_date u |}.

Definition set_usage_reset_date (d : option reset_text) (u : UserProfile)
  : UserProfile :=
  {| user_id := user_id u; business_name := business_name u;
     business_type := business_type u; tone := tone u;
     brand_voice := brand_voice u; signature := signature u;
     subscription_tier := subscription_tier u;
     usage_count := usage_count u; usage_reset_date := d |}.

Definition set_subscription_tier (t : string) (u : UserProfile) : UserProfile :=
  {| user_id := user_id u; business_name := business_name u;
     business_type := business_type u; tone := tone u;
     brand_voice := brand_voice u; signature := signature u;
     subscription_tier := t;
     usage_count := usage_count u; usage_reset_date := usage_reset_date u |}.

(** The state a request runs in: the in-memory store, how many times
    [datetime.now()] has been read, and the prompts sent to the provider so
    far (oldest first). *)
Record World : Type := {
  users_db : gmap string UserProfile;
  time_reads : nat;
  provider_log : list string
}.

Definition set_users_db (db : gmap string UserProfile) (w : World) : World :=
  {| users_db := db; time_reads := time_reads w;
     provider_log := provider_log w |}.

(** ** Subscription limits *)

Record TierPolicy : Type := { monthly_limit : Z; response_count : Z }.

Definition TIER_LIMITS : gmap string TierPolicy :=
  <["free" := {| monthly_limit := 10; response_count := 3 |}]>
  (<["pro" := {| monthly_limit := 500; response_count := 3 |}]>
  (<["enterprise" := {| monthly_limit := -1; response_count := 5 |}]> ∅)).

(** The detail of the 429 answer (line 85). *)
Definition quota_message : string :=
  "Monthly limit reached. Upgrade to Pro for 500 responses/month".

(** [timedelta(days=30)] in microseconds. *)
Definition thirty_days : Z := 30 * 86400 * 1000000.

(** ** Pure parts of generate_ai_responses *)

(** Line 94. *)
Definition sentiment_of (r : Z) : string :=
  if (4 <=? r)%Z then "positive"
  else if (r <=? 2)%Z then "negative"
  else "neutral".

(** Lines 97-128: the prompt, one list element per line of the f-string. *)
Definition build_prompt (review : ReviewInput) (profile : UserProfile)
    (response_count : Z) : string :=
  let sentiment := sentiment_of (rating review) in
  let brand_context :=
    if truthy (brand_voice profile)
    then nl +:+ nl +:+ "Brand Voice: " +:+ str_or (brand_voice profile) ""
    else "" in
  let signature_line :=
    if truthy (signature profile)
    then nl +:+ nl +:+ "Always end with: " +:+ str_or (signature profile) ""
    else "" in
  lines [
    "You are responding to a " +:+ sentiment +:+ " review for "
      +:+ business_name profile +:+ ", a " +:+ business_type profile +:+ ".";
    "";
    "Review (" +:+ str_int (rating review) +:+ " stars) from "
      +:+ str_or (reviewer_name review) "customer" +:+ " on "
      +:+ platform review +:+ ":";
    dq +:+ review_text review +:+ dq;
    brand_context +:+ signature_line;
    "";
    "Generate " +:+ str_int response_count
      +:+ " different response options with a " +:+ tone profile +:+ " tone:";
    "";
    "1. Short & Sweet (1-2 sentences) - Quick, warm acknowledgment";
    "2. Detailed & Personal (3-4 sentences) - Shows you read and care";
    "3. Professional & Branded (2-3 sentences with subtle CTA)";
    "";
    "IMPORTANT RULES:";
    "- For negative reviews: Acknowledge issue, apologize sincerely, offer solution";
    "- For positive reviews: Thank genuinely, reinforce specific points they mentioned";
    "- Match the energy level of the review";
    "- Never be defensive or robotic";
    "- Include specific details from their review";
    "";
    "Return ONLY valid JSON with no markdown formatting:";
    "{";
    "  " +:+ dq +:+ "responses" +:+ dq +:+ ": [";
    "    {" +:+ dq +:+ "style" +:+ dq +:+ ": " +:+ dq +:+ "Short & Sweet" +:+ dq
      +:+ ", " +:+ dq +:+ "text" +:+ dq +:+ ": " +:+ dq +:+ "response here"
      +:+ dq +:+ "},";
    "    {" +:+ dq +:+ "style" +:+ dq +:+ ": " +:+ dq +:+ "Detailed & Personal"
      +:+ dq +:+ ", " +:+ dq +:+ "text" +:+ dq +:+ ": " +:+ dq
      +:+ "response here" +:+ dq +:+ "},";
    "    {" +:+ dq +:+ "style" +:+ dq +:+ ": " +:+ dq
      +:+ "Professional & Branded" +:+ dq +:+ ", " +:+ dq +:+ "text" +:+ dq
      +:+ ": " +:+ dq +:+ "response here" +:+ dq +:+ "}";
    "  ]";
    "}"
  ].

(** Line 150. *)
Definition clean (response_text : string) : string :=
  strip (replace (replace response_text "```json" "") "```" "").

Definition response_entry (style text : string) : dict :=
  [("style", JStr style); ("text", JStr text)].

(** Lines 158-171: the list returned when the text does not parse. It reads
    [review.rating], [profile.business_name], [profile.signature] and the
    sentiment, and nothing else. *)
Definition fallback_responses (rating : Z) (business_name : string)
    (signature : option string) (sentiment : string) : list dict :=
  let positive := String.eqb sentiment "positive" in
  [ response_entry "Short & Sweet"
      ("Thank you for your " +:+ str_int rating
        +:+ "-star review! We appreciate your feedback. "
        +:+ str_or signature "");
    response_entry "Detailed & Personal"
      ("Thank you for taking the time to share your experience at "
        +:+ business_name +:+ ". We're "
        +:+ (if positive then "thrilled"
             else "sorry to hear about your experience and would love to make it right")
        +:+ ". " +:+ str_or signature "");
    response_entry "Professional & Branded"
      ("We appreciate your feedback. "
        +:+ (if positive
             then "Your satisfaction is our priority and we hope to see you again soon!"
             else "We take all feedback seriously and would love the opportunity to improve. Please contact us directly.")
        +:+ " " +:+ str_or signature "") ].

(** The ["style"] of each entry of a list of responses. *)
Definition styles (rs : list dict) : list (option json) :=
  map (dict_get "style") rs.

(** ** The stateful functions *)

Section Backend.

(** [clock n] is what the [n]-th read of [datetime.now()] returns. *)
Variable clock : nat -> Z.

(** [provider n prompt] is how lines 132-147 end for the [n]-th call: the
    text of the first content block, or the exception raised on the way
    (building the client, the network call, indexing the content). *)
Variable provider : nat -> string -> result py_error string.

(** [json.loads]. *)
Variable json_loads : string -> result py_error json.

(** pydantic's validation of the field [responses: List[dict]]: the list
    handed to the client, or the message of the ValidationError. *)
Variable validate_responses : json -> result string (list dict).

Definition datetime_now (w : World) : Z * World :=
  (clock (time_reads w),
   {| users_db := users_db w; time_reads := S (time_reads w);
      provider_log := provider_log w |}).

Definition call_provider (prompt : string) (w : World)
  : result py_error string * World :=
  (provider (length (provider_log w)) prompt,
   {| users_db := users_db w; time_reads := time_reads w;
      provider_log := provider_log w ++ [prompt] |}).

(** Lines 73-80: the reset block. It mutates [user]; the profile returned
    is the object after the block, also when the block raises. *)
Definition reset_if_new_month (user : UserProfile) (w : World)
  : UserProfile * World * result exn unit :=
  match usage_reset_date user with
  | Some (Instant reset_date) =>
    let (now, w1) := datetime_now w in
    if (now >? reset_date)%Z then
      let user1 := set_usage_count 0 user in
      let (now', w2) := datetime_now w1 in
      (set_usage_reset_date (Some (Instant (now' + thirty_days))) user1,
       w2, Ok tt)
    else (user, w1, Ok tt)
  | Some (Malformed msg) => (user, w, Raise (Unhandled ValueError msg))
  | Some (Aware msg) =>
    let (_, w1) := datetime_now w in
    (user, w1, Raise (Unhandled TypeError msg))
  | Some Blank | None =>
    let (now, w1) := datetime_now w in
    (set_usage_reset_date (Some (Instant (now + thirty_days))) user,
     w1, Ok tt)
  end.

(** Lines 69-88. Returns the profile object as the call leaves it, the
    world, and the value returned or the exception raised. *)
Definition check_usage_limit (user : UserProfile) (w : World)
  : UserProfile * World * result exn Z :=
  match TIER_LIMITS !! subscription_tier user with
  | None => (user, w, Raise (Unhandled KeyError (subscription_tier user)))
  | Some policy =>
    let tier_limit := monthly_limit policy in
    match reset_if_new_month user w with
    | (user1, w1, Raise e) => (user1, w1, Raise e)
    | (user1, w1, Ok _) =>
      if negb (tier_limit =? -1)%Z && (usage_count user1 >=? tier_limit)%Z
      then (user1, w1, Raise (HTTPException 429 quota_message))
      else (user1, w1,
            Ok (if negb (tier_limit =? -1)%Z
                then tier_limit - usage_count user1
                else 999))
    end
  end.

(** Line 153: [parsed.get("responses", [])]; only a dict has [get]. *)
Definition get_responses (parsed : json) : result py_error json :=
  match parsed with
  | JObj d =>
    Ok (match dict_get "responses" d with Some v => v | None => JArr [] end)
  | _ =>
    Raise (PyError AttributeError
             ("'" +:+ type_name parsed +:+ "' object has no attribute 'get'"))
  end.

(** Lines 131-153: the body of the [try]. *)
Definition try_generate (prompt : string) (w : World)
  : result py_error json * World :=
  match call_provider prompt w with
  | (Raise e, w1) => (Raise e, w1)
  | (Ok response_text, w1) =>
    let clean_text := clean response_text in
    match json_loads clean_text with
    | Raise e => (Raise e, w1)
    | Ok parsed => (get_responses parsed, w1)
    end
  end.

(** Lines 90-174. The two [except] clauses are tried in order. *)
Definition generate_ai_responses (review : ReviewInput)
    (profile : UserProfile) (w : World) : World * result exn json :=
  let sentiment := sentiment_of (rating review) in
  match TIER_LIMITS !! subscription_tier profile with
  | None => (w, Raise (Unhandled KeyError (subscription_tier profile)))
  | Some policy =>
    let prompt := build_prompt review profile (response_count policy) in
    match try_generate prompt w with
    | (Ok v, w1) => (w1, Ok v)
    | (Raise e, w1) =>
      if is_JSONDecodeError (err_class e)
      then (w1, Ok (JArr (map JObj
                            (fallback_responses (rating review)
                               (business_name profile) (signature profile)
                               sentiment))))
      else (w1, Raise (HTTPException 500
                         ("AI generation failed: " +:+ err_str e)))
    end
  end.

(** Lines 212-235, entered with the [user_id] that verify_api_key resolved.
    [profile] is a fresh object built from the stored data; the store is
    written once, after generation. *)
Definition generate_responses (review : ReviewInput) (uid : string)
    (w : World) : World * result exn ResponseOutput :=
  match users_db w !! uid with
  | None => (w, Raise (HTTPException 404 "User not found"))
  | Some profile_data =>
    let profile := profile_data in
    match check_usage_limit profile w with
    | (_, w1, Raise e) => (w1, Raise e)
    | (profile1, w1, Ok remaining) =>
      match generate_ai_responses review profile1 w1 with
      | (w2, Raise e) => (w2, Raise e)
      | (w2, Ok rs) =>
        let profile2 := set_usage_count (usage_count profile1 + 1) profile1 in
        let w3 := set_users_db (<[uid := profile2]> (users_db w2)) w2 in
        match validate_responses rs with
        | Ok items =>
          (w3, Ok {| responses := items; usage_remaining := remaining - 1 |})
        | Raise msg => (w3, Raise (Unhandled ValidationError msg))
        end
      end
    end
  end.

(** Lines 253-268, entered with the resolved [user_id]. Returns the
    message and the new limit. *)
Definition upgrade_subscription (tier : string) (uid : string) (w : World)
  : World * result exn (string * Z) :=
  match TIER_LIMITS !! tier with
  | None => (w, Raise (HTTPException 400 "Invalid tier"))
  | Some policy =>
    match users_db w !! uid with
    | None => (w, Raise (HTTPException 404 "User not found"))
    | Some stored =>
      (set_users_db (<[uid := set_subscription_tier tier stored]> (users_db w)) w,
       Ok ("Upgraded to " +:+ tier, monthly_limit policy))
    end
  end.

End Backend.

(** ** The remaining endpoints *)

(** The whole in-memory state of the service: the world the generation
    pipeline runs in, and the table of issued API keys. *)
Record Server : Type := {
  world : World;
  api_keys_db : gmap string string
}.

(** Lines 63-67. *)
Definition verify_api_key (keys : gmap string string) (x_api_key : string)
  : result exn string :=
  match keys !! x_api_key with
  | None => Raise (HTTPException 401 "Invalid API key")
  | Some uid => Ok uid
  end.

Definition hex_digit (n : N) : ascii :=
  nth (N.to_nat n) (list_ascii_of_string "0123456789abcdef") "0"%char.

(** [bytes.hex()]: two lowercase digits per byte. *)
Definition hex (bs : list ascii) : string :=
  string_of_list_ascii
    (flat_map (fun b => [hex_digit (N_of_ascii b / 16);
                         hex_digit (N_of_ascii b mod 16)]) bs).

(** Line 181, where [random_bytes] is what [os.urandom(16)] returned. *)
Definition new_api_key (uid : string) (random_bytes : list ascii) : string :=
  "rr_" +:+ uid +:+ "_" +:+ hex random_bytes.

Record Registration : Type := {
  reg_api_key : string;
  reg_message : string;
  reg_tier : string
}.

(** Lines 178-190. The profile is stored under its [user_id], replacing
    whatever was there, and the new key is added to the table. *)
Definition register_user (profile : UserProfile) (random_bytes : list ascii)
    (s : Server) : Server * Registration :=
  let api_key := new_api_key (user_id profile) random_bytes in
  ({| world :=
        set_users_db (<[user_id profile := profile]> (users_db (world s)))
          (world s);
      api_keys_db := <[api_key := user_id profile]> (api_keys_db s) |},
   {| reg_api_key := api_key;
      reg_message := "Registration successful";
      reg_tier := subscription_tier profile |}).

(** Lines 192-197, entered with the resolved [user_id]. *)
Definition get_profile (uid : string) (w : World) : result exn UserProfile :=
  match users_db w !! uid with
  | None => Raise (HTTPException 404 "User not found")
  | Some stored => Ok stored
  end.

Definition set_business_name (v : string) (u : UserProfile) : UserProfile :=
  {| user_id := user_id u; business_name := v;
     business_type := business_type u; tone := tone u;
     brand_voice := brand_voice u; signature := signature u;
     subscription_tier := subscription_tier u;
     usage_count := usage_count u; usage_reset_date := usage_reset_date u |}.

Definition set_business_type (v : string) (u : UserProfile) : UserProfile :=
  {| user_id := user_id u; business_name := business_name u;
     business_type := v; tone := tone u;
     brand_voice := brand_voice u; signature := signature u;
     subscription_tier := subscription_tier u;
     usage_count := usage_count u; usage_reset_date := usage_reset_date u |}.

Definition set_tone (v : string) (u : UserProfile) : UserProfile :=
  {| user_id := user_id u; business_name := business_name u;
     business_type := business_type u; tone := v;
     brand_voice := brand_voice u; signature := signature u;
     subscription_tier := subscription_tier u;
     usage_count := usage_count u; usage_reset_date := usage_reset_date u |}.

Definition set_brand_voice (v : option string) (u : UserProfile)
  : UserProfile :=
  {| user_id := user_id u; business_name := business_name u;
     business_type := business_type u; tone := tone u;
     brand_voice := v; signature := signature u;
     subscription_tier := subscription_tier u;
     usage_count := usage_count u; usage_reset_date := usage_reset_date u |}.

Definition set_signature (v : option string) (u : UserProfile) : UserProfile :=
  {| user_id := user_id u; business_name := business_name u;
     business_type := business_type u; tone := tone u;
     brand_voice := brand_voice u; signature := v;
     subscription_tier := subscription_tier u;
     usage_count := usage_count u; usage_reset_date := usage_reset_date u |}.

(** Line 205. *)
Definition allowed_fields : list string :=
  ["business_name"; "business_type"; "tone"; "brand_voice"; "signature"].

(** Line 208, [users_db[user_id][field] = updates[field]], for a [field] of
    [allowed_fields]. The code stores any JSON value. The store of this
    model holds typed profiles, so the assignment has an image here only
    when the value fits the field (a string; for the two optional fields
    also null); elsewhere the result is [None]. *)
Definition assign_field (field : string) (v : json) (u : UserProfile)
  : option UserProfile :=
  if String.eqb field "business_name" then
    match v with JStr s => Some (set_business_name s u) | _ => None end
  else if String.eqb field "business_type" then
    match v with JStr s => Some (set_business_type s u) | _ => None end
  else if String.eqb field "tone" then
    match v with JStr s => Some (set_tone s u) | _ => None end
  else if String.eqb field "brand_voice" then
    match v with
    | JStr s => Some (set_brand_voice (Some s) u)
    | JNull => Some (set_brand_voice None u)
    | _ => None
    end
  else if String.eqb field "signature" then
    match v with
    | JStr s => Some (set_signature (Some s) u)
    | JNull => Some (set_signature None u)
    | _ => None
    end
  else Some u.

(** Lines 206-208: one turn of the loop. *)
Definition update_field (updates : dict) (acc : option UserProfile)
    (field : string) : option UserProfile :=
  match acc with
  | None => None
  | Some u =>
    match dict_get field updates with
    | None => Some u
    | Some v => assign_field field v u
    end
  end.

(** Lines 199-210, entered with the resolved [user_id]. [None] marks the
    requests that leave the typed store (see [assign_field]). *)
Definition update_profile (updates : dict) (uid : string) (w : World)
  : option (World * result exn (string * UserProfile)) :=
  match users_db w !! uid with
  | None => Some (w, Raise (HTTPException 404 "User not found"))
  | Some stored =>
    match fold_left (update_field updates) allowed_fields (Some stored) with
    | None => None
    | Some updated =>
      Some (set_users_db (<[uid := updated]> (users_db w)) w,
            Ok ("Profile updated", updated))
    end
  end.

Record UsageStats : Type := {
  stats_tier : string;
  stats_usage_count : Z;
  stats_monthly_limit : json;
  stats_reset_date : option reset_text
}.

(** Lines 237-251, entered with the resolved [user_id]. *)
Definition get_usage (uid : string) (w : World) : result exn UsageStats :=
  match users_db w !! uid with
  | None => Raise (HTTPException 404 "User not found")
  | Some profile =>
    match TIER_LIMITS !! subscription_tier profile with
    | None => Raise (Unhandled KeyError (subscription_tier profile))
    | Some policy =>
      let tier_limit := monthly_limit policy in
      Ok {| stats_tier := subscription_tier profile;
            stats_usage_count := usage_count profile;
            stats_monthly_limit :=
              if negb (tier_limit =? -1)%Z then JInt tier_limit
              else JStr "unlimited";
            stats_reset_date := usage_reset_date profile |}
    end
  end.

(** ** Sample data for the examples *)

Definition sample_clock (n : nat) : Z := 1700000000000000 + Z.of_nat n.

Definition provider_prose (n : nat) (prompt : string)
  : result py_error string :=
  Ok "Sure! Here are three replies you could post.".

Definition provider_empty_object (n : nat) (prompt : string)
  : result py_error string :=
  Ok ("```json" +:+ nl +:+ "{}" +:+ nl +:+ "```").

Definition provider_down (n : nat) (prompt : string)
  : result py_error string :=
  Raise (PyError (OtherException "APIConnectionError") "Connection error.").

(** Agrees with [json.loads] on the two texts the sample providers produce
    once cleaned. *)
Definition sample_json_loads (text : string) : result py_error json :=
  if String.eqb text "{}" then Ok (JObj [])
  else Raise (PyError JSONDecodeError
                "Expecting value: line 1 column 1 (char 0)").

Fixpoint all_dicts (items : list json) : option (list dict) :=
  match items with
  | [] => Some []
  | JObj d :: rest =>
    match all_dicts rest with Some ds => Some (d :: ds) | None => None end
  | _ :: _ => None
  end.

(** A validator that accepts exactly the lists of dicts. *)
Definition strict_validate (v : json) : result string (list dict) :=
  match v with
  | JArr items =>
    match all_dicts items with
    | Some ds => Ok ds
    | None => Raise "Input should be a valid dictionary"
    end
  | _ => Raise "Input should be a valid list"
  end.

Definition sample_profile (tier : string) (count : Z)
    (reset : option reset_text) : UserProfile :=
  {| user_id := "u1"; business_name := "Cafe Luna";
     business_type := "coffee shop"; tone := "professional";
     brand_voice := None; signature := Some "- The Team";
     subscription_tier := tier; usage_count := count;
     usage_reset_date := reset |}.

Definition sample_review (stars : Z) : ReviewInput :=
  {| review_text := "Great espresso."; rating := stars;
     reviewer_name := None; platform := "google"; context := None |}.

Definition sample_world (p : UserProfile) : World :=
  {| users_db := <["u1" := p]> ∅; time_reads := 0; provider_log := [] |}.

Definition at_limit_profile : UserProfile := sample_profile "free" 10 None.

Definition stale_profile : UserProfile :=
  sample_profile "free" 7 (Some (Instant 0)).

Definition pro_profile : UserProfile := sample_profile "pro" 3 None.

Definition enterprise_profile : UserProfile :=
  {| user_id := "u2"; business_name := "Cafe Luna";
     business_type := "bakery"; tone := "playful";
     brand_voice := Some "warm and witty"; signature := Some "- The Team";
     subscription_tier := "enterprise"; usage_count := 1200;
     usage_reset_date := Some (Instant 1800000000000000) |}.

Definition other_review : ReviewInput :=
  {| review_text := "Loved the croissants, will be back."; rating := 5;
     reviewer_name := Some "Ana"; platform := "yelp";
     context := Some "regular customer" |}.

Definition provider_html (n : nat) (prompt : string)
  : result py_error string :=
  Ok "<html>502 Bad Gateway</html>".

(** A reply with a single entry, and the value [json.loads] makes of it. *)
Definition one_reply_text : string :=
  "{" +:+ dq +:+ "responses" +:+ dq +:+ ": [{" +:+ dq +:+ "style" +:+ dq
  +:+ ": " +:+ dq +:+ "Short & Sweet" +:+ dq +:+ ", " +:+ dq +:+ "text" +:+ dq
  +:+ ": " +:+ dq +:+ "Thanks!" +:+ dq +:+ "}]}".

Definition one_reply : dict :=
  [("style", JStr "Short & Sweet"); ("text", JStr "Thanks!")].

Definition provider_one_reply (n : nat) (prompt : string)
  : result py_error string :=
  Ok ("```json" +:+ nl +:+ one_reply_text +:+ nl +:+ "```").

Definition provider_bare_list (n : nat) (prompt : string)
  : result py_error string :=
  Ok "[]".

Definition provider_bad_body (n : nat) (prompt : string)
  : result py_error string :=
  Raise (PyError JSONDecodeError "Expecting value: line 1 column 1 (char 0)").

(** A reply whose "responses" is a string instead of a list. *)
Definition string_reply_text : string :=
  "{" +:+ dq +:+ "responses" +:+ dq +:+ ": " +:+ dq +:+ "none today" +:+ dq
  +:+ "}".

Definition provider_string_reply (n : nat) (prompt : string)
  : result py_error string :=
  Ok string_reply_text.

(** Agrees with [json.loads] on the cleaned texts of the sample providers. *)
Definition sample_json_loads_more (text : string) : result py_error json :=
  if String.eqb text "[]" then Ok (JArr [])
  else if String.eqb text one_reply_text
  then Ok (JObj [("responses", JArr [JObj one_reply])])
  else if String.eqb text string_reply_text
  then Ok (JObj [("responses", JStr "none today")])
  else sample_json_loads text.

Definition two_user_world : World :=
  {| users_db := <["u1" := pro_profile]> (<["u2" := enterprise_profile]> ∅);
     time_reads := 0; provider_log := [] |}.

(** A parser that runs out of stack on every text. *)
Definition json_loads_exhausted (text : string) : result py_error json :=
  Raise (PyError (OtherException "RecursionError")
           "maximum recursion depth exceeded").

Definition near_limit_profile : UserProfile :=
  sample_profile "free" 8 (Some (Instant 1800000000000000)).

Definition unreadable_profile : UserProfile :=
  sample_profile "free" 10
    (Some (Malformed "Invalid isoformat string: 'next month'")).


Definition sixteen_bytes : list ascii :=
  bytes [0; 1; 2; 3; 250; 251; 252; 253; 16; 32; 48; 64; 80; 96; 112; 128]%nat.

Definition empty_server : Server :=
  {| world := {| users_db := ∅; time_reads := 0; provider_log := [] |};
     api_keys_db := ∅ |}.

Definition sample_updates : dict :=
  [("subscription_tier", JStr "enterprise"); ("usage_count", JInt 0);
   ("tone", JStr "casual"); ("signature", JNull)].

(** ** Vocabulary of the statements *)

(** The stored reset date lies before the reading line 76 would take. *)
Definition reset_due (clock : nat -> Z) (user : UserProfile) (w : World)
  : bool :=
  match usage_reset_date user with
  | Some (Instant t) => (t <? clock (time_reads w))%Z
  | _ => false
  end.

Definition fallback_styles : list (option json) :=
  [Some (JStr "Short & Sweet"); Some (JStr "Detailed & Personal");
   Some (JStr "Professional & Branded")].

(** The requests of one user, served one after the other: the final world
    and the answers in order. *)
Fixpoint run_requests (clock : nat -> Z)
    (provider : nat -> string -> result py_error string)
    (json_loads : string -> result py_error json)
    (validate_responses : json -> result string (list dict))
    (reviews : list ReviewInput) (uid : string) (w : World)
  : World * list (result exn ResponseOutput) :=
  match reviews with
  | [] => (w, [])
  | review :: rest =>
    let (w1, answer) :=
      generate_responses clock provider json_loads validate_responses
        review uid w in
    let (w2, answers) :=
      run_requests clock provider json_loads validate_responses rest uid w1 in
    (w2, answer :: answers)
  end.

(** Generation always ends well: whatever the provider sends comes out as a
    list that passes validation (a parsed list or the fallback). *)
Definition generation_always_succeeds
    (provider : nat -> string -> result py_error string)
    (json_loads : string -> result py_error json)
    (validate_responses : json -> result string (list dict)) : Prop :=
  ∀ (review : ReviewInput) (profile : UserProfile) (w : World),
    is_Some (TIER_LIMITS !! subscription_tier profile) →
    ∃ (rs : json) (items : list dict),
      (generate_ai_responses provider json_loads review profile w).2 = Ok rs
      ∧ validate_responses rs = Ok items.

(** The line feed, as a character. *)
Definition nl_char : ascii := ascii_of_nat 10.

(** Every key of the table was built by line 181 for the user id it maps to,
    from sixteen random bytes. *)
Definition keys_well_formed (keys : gmap string string) : Prop :=
  ∀ (k uid : string),
    keys !! k = Some uid →
    ∃ bs : list ascii, length bs = 16%nat ∧ k = new_api_key uid bs.

(** * Properties *)

Example replace_fence :
  replace ("```json" +:+ nl +:+ "{}" +:+ nl +:+ "```") "```json" ""
  = nl +:+ "{}" +:+ nl +:+ "```".
Proof. reflexivity. Qed.

Example strip_both : strip ("  " +:+ nl +:+ "{ }" +:+ nl +:+ " ") = "{ }".
Proof. reflexivity. Qed.

Example strip_nbsp :
  strip (string_of_list_ascii (bytes [194; 160; 65; 226; 128; 137]%nat)) = "A".
Proof. reflexivity. Qed.

Example str_int_neg : str_int (-12) = "-12" /\ str_int 0 = "0" /\ str_int 5 = "5".
Proof. repeat split; reflexivity. Qed.

Example clean_fenced :
  clean ("```json" +:+ nl +:+ "{}" +:+ nl +:+ "```") = "{}".
Proof. reflexivity. Qed.

(** ** The tier table *)

Lemma TIER_LIMITS_unknown (t : string) :
  t ≠ "free" → t ≠ "pro" → t ≠ "enterprise" → TIER_LIMITS !! t = None.
Proof.
  intros Hf Hp He. unfold TIER_LIMITS.
  rewrite !lookup_insert_ne by congruence. apply lookup_empty.
Qed.

Lemma TIER_LIMITS_known (t : string) (policy : TierPolicy) :
  TIER_LIMITS !! t = Some policy →
  (t = "free" ∧ policy = {| monthly_limit := 10; response_count := 3 |})
  ∨ (t = "pro" ∧ policy = {| monthly_limit := 500; response_count := 3 |})
  ∨ (t = "enterprise"
     ∧ policy = {| monthly_limit := -1; response_count := 5 |}).
Proof.
  intros H.
  destruct (decide (t = "free")) as [->|Hf].
  { left. split; [done|]. vm_compute in H. congruence. }
  destruct (decide (t = "pro")) as [->|Hp].
  { right; left. split; [done|]. vm_compute in H. congruence. }
  destruct (decide (t = "enterprise")) as [->|He].
  { right; right. split; [done|]. vm_compute in H. congruence. }
  rewrite TIER_LIMITS_unknown in H by done. discriminate.
Qed.

Lemma finite_limit_positive (t : string) (policy : TierPolicy) :
  TIER_LIMITS !! t = Some policy →
  monthly_limit policy ≠ -1 → 0 < monthly_limit policy.
Proof.
  intros H Hfin.
  destruct (TIER_LIMITS_known _ _ H) as [[_ ->]|[[_ ->]|[_ ->]]];
    simpl in *; lia.
Qed.

(** C7. The table maps "free" to (10, 3), "pro" to (500, 3) and "enterprise"
    to (-1, 5), where -1 is the unlimited quota; the lookup is a pure
    function and fails for every other tier string; /api/upgrade answers any
    such tier, "platinum" among them, with HTTPException 400 "Invalid tier"
    and leaves the world, hence every stored profile, as it was. *)
Theorem tier_policy_table :
  TIER_LIMITS !! "free" = Some {| monthly_limit := 10; response_count := 3 |}
  ∧ TIER_LIMITS !! "pro" = Some {| monthly_limit := 500; response_count := 3 |}
  ∧ TIER_LIMITS !! "enterprise"
    = Some {| monthly_limit := -1; response_count := 5 |}
  ∧ (∀ t : string,
       t ≠ "free" → t ≠ "pro" → t ≠ "enterprise" →
       TIER_LIMITS !! t = None
       ∧ ∀ (uid : string) (w : World),
           upgrade_subscription t uid w
           = (w, Raise (HTTPException 400 "Invalid tier")))
  ∧ (∀ (uid : string) (w : World),
       upgrade_subscription "platinum" uid w
       = (w, Raise (HTTPException 400 "Invalid tier"))).
Proof.
  split; [reflexivity|]. split; [reflexivity|]. split; [reflexivity|].
  split.
  - intros t Hf Hp He. pose proof (TIER_LIMITS_unknown t Hf Hp He) as Hnone.
    split; [exact Hnone|]. intros uid w. unfold upgrade_subscription.
    by rewrite Hnone.
  - intros uid w. reflexivity.
Qed.

Lemma tier_policy_table_witness :
  TIER_LIMITS !! "gold" = None
  ∧ upgrade_subscription "gold" "u1"
      (sample_world (sample_profile "free" 3 None))
    = (sample_world (sample_profile "free" 3 None),
       Raise (HTTPException 400 "Invalid tier")).
Proof.
  destruct tier_policy_table as (_ & _ & _ & Hother & _).
  destruct (Hother "gold") as [Hnone Hup]; [done | done | done |].
  split; [exact Hnone | apply Hup].
Defined.

(** ** Sentiment *)

(** C2. For every integer rating, in or out of the range 1-5, the sentiment
    is "positive" from 4 up, "negative" up to 2, and "neutral" at 3. *)
Theorem sentiment_classification (r : Z) :
  (4 <= r → sentiment_of r = "positive")
  ∧ (r <= 2 → sentiment_of r = "negative")
  ∧ (r = 3 → sentiment_of r = "neutral").
Proof.
  unfold sentiment_of. repeat split; intros H.
  - destruct (Z.leb_spec 4 r); [done | lia].
  - destruct (Z.leb_spec 4 r); [lia|].
    destruct (Z.leb_spec r 2); [done | lia].
  - by subst r.
Qed.

Lemma sentiment_classification_witness :
  sentiment_of 9 = "positive" ∧ sentiment_of (-4) = "negative"
  ∧ sentiment_of 3 = "neutral".
Proof.
  split; [|split].
  - apply (proj1 (sentiment_classification 9)). lia.
  - apply (proj1 (proj2 (sentiment_classification (-4)))). lia.
  - apply (proj2 (proj2 (sentiment_classification 3))). reflexivity.
Defined.

(** ** The usage check *)

Section UsageCheck.

Variable clock : nat -> Z.

(** The reset block touches the counter and the reset date only, reads the
    clock, and leaves the store and the provider log alone. *)
Lemma reset_if_new_month_frame (user user1 : UserProfile) (w w1 : World)
    (r : result exn unit) :
  reset_if_new_month clock user w = (user1, w1, r) →
  subscription_tier user1 = subscription_tier user
  ∧ business_name user1 = business_name user
  ∧ signature user1 = signature user
  ∧ users_db w1 = users_db w
  ∧ provider_log w1 = provider_log w.
Proof.
  unfold reset_if_new_month, datetime_now.
  destruct (usage_reset_date user) as [[ | t | msg | msg] | ];
    try destruct (clock (time_reads w) >? t)%Z;
    intros [= <- <- <-]; simpl; auto.
Qed.

Lemma reset_if_new_month_unset (user : UserProfile) (w : World) :
  usage_reset_date user = None →
  (reset_if_new_month clock user w).1.1
  = set_usage_reset_date
      (Some (Instant (clock (time_reads w) + thirty_days))) user
  ∧ (reset_if_new_month clock user w).2 = Ok tt.
Proof. intros H. unfold reset_if_new_month. rewrite H. done. Qed.

Lemma reset_if_new_month_past (user : UserProfile) (w : World) (t : Z) :
  usage_reset_date user = Some (Instant t) →
  t < clock (time_reads w) →
  (reset_if_new_month clock user w).1.1
  = set_usage_reset_date
      (Some (Instant (clock (S (time_reads w)) + thirty_days)))
      (set_usage_count 0 user)
  ∧ (reset_if_new_month clock user w).2 = Ok tt.
Proof.
  intros H Hlt. unfold reset_if_new_month. rewrite H. simpl.
  destruct (Z.gtb_spec (clock (time_reads w)) t); [done | lia].
Qed.

(** Once the tier is known and the reset block has run, the result of the
    check is decided by the counter the block left. *)
Lemma check_usage_limit_after_reset (user user1 : UserProfile) (w w1 : World)
    (policy : TierPolicy) :
  TIER_LIMITS !! subscription_tier user = Some policy →
  reset_if_new_month clock user w = (user1, w1, Ok tt) →
  check_usage_limit clock user w
  = (user1, w1,
     if negb (monthly_limit policy =? -1)%Z
        && (usage_count user1 >=? monthly_limit policy)%Z
     then Raise (HTTPException 429 quota_message)
     else Ok (if negb (monthly_limit policy =? -1)%Z
              then monthly_limit policy - usage_count user1
              else 999)).
Proof.
  intros Htier Hreset. unfold check_usage_limit. rewrite Htier, Hreset.
  by destruct (negb _ && _).
Qed.

Lemma check_usage_limit_ok_inv (user user1 : UserProfile) (w w1 : World)
    (remaining : Z) :
  check_usage_limit clock user w = (user1, w1, Ok remaining) →
  reset_if_new_month clock user w = (user1, w1, Ok tt).
Proof.
  unfold check_usage_limit.
  destruct (TIER_LIMITS !! subscription_tier user); [|discriminate].
  destruct (reset_if_new_month clock user w) as [[u x] [[]|e]];
    [|discriminate].
  destruct (negb _ && _); intros [= <- <- _]; done.
Qed.

(** C5. When the reset date is unset, one call of check_usage_limit leaves
    the counter alone and sets the date to thirty days after the clock
    reading it takes. When the stored date lies before the reading the call
    compares it with, the counter becomes 0 and the date becomes thirty
    days after the next reading, the one line 78 takes. Thirty days are
    30 * 24 * 3600 seconds. *)
Theorem reset_timestamp_update (user : UserProfile) (w : World)
    (policy : TierPolicy) :
  TIER_LIMITS !! subscription_tier user = Some policy →
  thirty_days = 30 * (24 * 3600 * 1000000)
  ∧ (usage_reset_date user = None →
     usage_reset_date (check_usage_limit clock user w).1.1
     = Some (Instant (clock (time_reads w) + thirty_days))
     ∧ usage_count (check_usage_limit clock user w).1.1 = usage_count user)
  ∧ (∀ t : Z,
       usage_reset_date user = Some (Instant t) →
       t < clock (time_reads w) →
       usage_count (check_usage_limit clock user w).1.1 = 0
       ∧ usage_reset_date (check_usage_limit clock user w).1.1
         = Some (Instant (clock (S (time_reads w)) + thirty_days))).
Proof.
  intros Htier. split; [reflexivity|]. split.
  - intros Hnone.
    destruct (reset_if_new_month_unset user w Hnone) as [Hu Hr].
    destruct (reset_if_new_month clock user w) as [[u1 w1] r] eqn:E.
    simpl in Hu, Hr. subst r.
    rewrite (check_usage_limit_after_reset _ _ _ _ _ Htier E). simpl.
    by subst u1.
  - intros t Hsome Hlt.
    destruct (reset_if_new_month_past user w t Hsome Hlt) as [Hu Hr].
    destruct (reset_if_new_month clock user w) as [[u1 w1] r] eqn:E.
    simpl in Hu, Hr. subst r.
    rewrite (check_usage_limit_after_reset _ _ _ _ _ Htier E). simpl.
    by subst u1.
Qed.

(** C8. When check_usage_limit returns, the value is the tier's limit minus
    the counter of the profile as the call leaves it (so never less than
    that difference, and at least 1) for a finite limit, and the sentinel
    999 for the unlimited tier. *)
Theorem remaining_quota (user user1 : UserProfile) (w w1 : World)
    (policy : TierPolicy) (remaining : Z) :
  TIER_LIMITS !! subscription_tier user = Some policy →
  check_usage_limit clock user w = (user1, w1, Ok remaining) →
  (monthly_limit policy ≠ -1 →
     remaining = monthly_limit policy - usage_count user1
     ∧ monthly_limit policy - usage_count user1 <= remaining
     ∧ usage_count user1 < monthly_limit policy)
  ∧ (monthly_limit policy = -1 → remaining = 999).
Proof.
  intros Htier Hcheck.
  pose proof (check_usage_limit_ok_inv _ _ _ _ _ Hcheck) as Hreset.
  rewrite (check_usage_limit_after_reset _ _ _ _ _ Htier Hreset) in Hcheck.
  destruct (Z.eqb_spec (monthly_limit policy) (-1)) as [Heq|Hne]; simpl in *.
  - injection Hcheck as <-. split; [congruence | done].
  - destruct (Z.geb_spec (usage_count user1) (monthly_limit policy));
      [discriminate|].
    injection Hcheck as <-. split; [intros _; lia | congruence].
Qed.

End UsageCheck.

(** ** Generation and the endpoint *)

Section Generation.

Variable clock : nat -> Z.
Variable provider : nat -> string -> result py_error string.
Variable json_loads : string -> result py_error json.
Variable validate_responses : json -> result string (list dict).

Abbreviation generate := (generate_ai_responses provider json_loads).
Abbreviation endpoint :=
  (generate_responses clock provider json_loads validate_responses).

Lemma try_generate_frame (prompt : string) (w : World) :
  users_db (try_generate provider json_loads prompt w).2 = users_db w
  ∧ provider_log (try_generate provider json_loads prompt w).2
    = (provider_log w ++ [prompt])%list.
Proof.
  unfold try_generate, call_provider.
  destruct (provider _ _); [destruct (json_loads _)|]; done.
Qed.

(** Generation never writes the store. *)
Lemma generate_ai_responses_frame (review : ReviewInput)
    (profile : UserProfile) (w : World) :
  users_db (generate review profile w).1 = users_db w.
Proof.
  unfold generate_ai_responses.
  destruct (TIER_LIMITS !! subscription_tier profile); [|done].
  pose proof (try_generate_frame
                (build_prompt review profile (response_count t)) w) as [H _].
  destruct (try_generate _ _ _ _) as [[v|e] w1]; simpl in *; [done|].
  by destruct (is_JSONDecodeError _).
Qed.

Lemma check_usage_limit_frame (user user1 : UserProfile) (w w1 : World)
    (r : result exn Z) :
  check_usage_limit clock user w = (user1, w1, r) →
  subscription_tier user1 = subscription_tier user
  ∧ business_name user1 = business_name user
  ∧ signature user1 = signature user
  ∧ users_db w1 = users_db w
  ∧ provider_log w1 = provider_log w.
Proof.
  unfold check_usage_limit.
  destruct (TIER_LIMITS !! subscription_tier user).
  - destruct (reset_if_new_month clock user w) as [[u x] [[]|e]] eqn:E;
      pose proof (reset_if_new_month_frame _ _ _ _ _ _ E) as F;
      [destruct (negb _ && _)|]; intros [= <- <- <-]; exact F.
  - intros [= <- <- <-]. done.
Qed.

(** The endpoint once the stored profile has passed the check. *)
Lemma generate_responses_after_check (review : ReviewInput) (uid : string)
    (w w1 : World) (user user1 : UserProfile) (remaining : Z) :
  users_db w !! uid = Some user →
  check_usage_limit clock user w = (user1, w1, Ok remaining) →
  endpoint review uid w
  = match generate review user1 w1 with
    | (w2, Raise e) => (w2, Raise e)
    | (w2, Ok rs) =>
      let w3 :=
        set_users_db
          (<[uid := set_usage_count (usage_count user1 + 1) user1]>
             (users_db w2)) w2 in
      match validate_responses rs with
      | Ok items =>
        (w3, Ok {| responses := items; usage_remaining := remaining - 1 |})
      | Raise msg => (w3, Raise (Unhandled ValidationError msg))
      end
    end.
Proof.
  intros Hdb Hcheck. unfold generate_responses. by rewrite Hdb, Hcheck.
Qed.

(** How generation ends, by what the provider and the parser do. *)
Lemma generate_ai_responses_provider_error (review : ReviewInput)
    (profile : UserProfile) (w : World) (policy : TierPolicy)
    (e : py_error) :
  TIER_LIMITS !! subscription_tier profile = Some policy →
  provider (length (provider_log w))
    (build_prompt review profile (response_count policy)) = Raise e →
  is_JSONDecodeError (err_class e) = false →
  (generate review profile w).2
  = Raise (HTTPException 500 ("AI generation failed: " +:+ err_str e)).
Proof.
  intros Htier Hprov Hcls. unfold generate_ai_responses, try_generate,
    call_provider. rewrite Htier, Hprov. simpl. by rewrite Hcls.
Qed.

Lemma generate_ai_responses_unparseable (review : ReviewInput)
    (profile : UserProfile) (w : World) (policy : TierPolicy)
    (text : string) (e : py_error) :
  TIER_LIMITS !! subscription_tier profile = Some policy →
  provider (length (provider_log w))
    (build_prompt review profile (response_count policy)) = Ok text →
  json_loads (clean text) = Raise e →
  is_JSONDecodeError (err_class e) = true →
  (generate review profile w).2
  = Ok (JArr (map JObj
          (fallback_responses (rating review) (business_name profile)
             (signature profile) (sentiment_of (rating review))))).
Proof.
  intros Htier Hprov Hjson Hcls. unfold generate_ai_responses, try_generate,
    call_provider. rewrite Htier, Hprov, Hjson. simpl. by rewrite Hcls.
Qed.

Lemma generate_ai_responses_parsed (review : ReviewInput)
    (profile : UserProfile) (w : World) (policy : TierPolicy)
    (text : string) (parsed : json) :
  TIER_LIMITS !! subscription_tier profile = Some policy →
  provider (length (provider_log w))
    (build_prompt review profile (response_count policy)) = Ok text →
  json_loads (clean text) = Ok parsed →
  (generate review profile w).2
  = match get_responses parsed with
    | Ok v => Ok v
    | Raise e =>
      Raise (HTTPException 500 ("AI generation failed: " +:+ err_str e))
    end.
Proof.
  intros Htier Hprov Hjson. unfold generate_ai_responses, try_generate,
    call_provider. rewrite Htier, Hprov, Hjson. simpl.
  destruct parsed; simpl; done.
Qed.

(** The counter the check leaves when it returns: the stored one, or 0
    after a reset. *)
Lemma check_usage_limit_count (user user1 : UserProfile) (w w1 : World)
    (remaining : Z) :
  check_usage_limit clock user w = (user1, w1, Ok remaining) →
  usage_count user1 = if reset_due clock user w then 0 else usage_count user.
Proof.
  intros Hcheck. apply check_usage_limit_ok_inv in Hcheck. revert Hcheck.
  unfold reset_due, reset_if_new_month, datetime_now.
  destruct (usage_reset_date user) as [[ | t | msg | msg] | ]; simpl;
    try (by intros [= <- <-]).
  rewrite Z.gtb_ltb. destruct (t <? clock (time_reads w))%Z;
    by intros [= <- <-].
Qed.

(** C3. If the tier's limit is finite and the counter left by the reset
    block has reached it, check_usage_limit raises HTTPException 429, and so
    does the endpoint: the provider is not called and the store is not
    written, so the stored counter is not incremented. *)
Theorem quota_exceeded (review : ReviewInput) (uid : string)
    (w w1 : World) (user user1 : UserProfile) (policy : TierPolicy) :
  users_db w !! uid = Some user →
  TIER_LIMITS !! subscription_tier user = Some policy →
  monthly_limit policy ≠ -1 →
  reset_if_new_month clock user w = (user1, w1, Ok tt) →
  monthly_limit policy <= usage_count user1 →
  check_usage_limit clock user w
  = (user1, w1, Raise (HTTPException 429 quota_message))
  ∧ endpoint review uid w = (w1, Raise (HTTPException 429 quota_message))
  ∧ provider_log w1 = provider_log w
  ∧ users_db w1 = users_db w
  ∧ users_db w1 !! uid = Some user.
Proof.
  intros Hdb Htier Hfin Hreset Hover.
  assert (Hcheck : check_usage_limit clock user w
                   = (user1, w1, Raise (HTTPException 429 quota_message))).
  { rewrite (check_usage_limit_after_reset _ _ _ _ _ _ Htier Hreset).
    destruct (Z.eqb_spec (monthly_limit policy) (-1)); [done|]. simpl.
    destruct (Z.geb_spec (usage_count user1) (monthly_limit policy));
      [done | lia]. }
  destruct (check_usage_limit_frame _ _ _ _ _ Hcheck) as (_ & _ & _ & Hd & Hl).
  repeat split; try done.
  - unfold generate_responses. by rewrite Hdb, Hcheck.
  - by rewrite Hd.
Qed.

(** C4. If the stored profile passes the check and the provider call then
    raises an exception that is not a JSONDecodeError, generation raises
    HTTPException 500 carrying the provider's message instead of returning
    a fallback list, the endpoint raises the same, and the store is left as
    it was: the counter is not incremented. *)
Theorem provider_failure_is_fatal (review : ReviewInput) (uid : string)
    (w w1 : World) (user user1 : UserProfile) (remaining : Z)
    (policy : TierPolicy) (e : py_error) :
  users_db w !! uid = Some user →
  check_usage_limit clock user w = (user1, w1, Ok remaining) →
  TIER_LIMITS !! subscription_tier user = Some policy →
  provider (length (provider_log w1))
    (build_prompt review user1 (response_count policy)) = Raise e →
  is_JSONDecodeError (err_class e) = false →
  (generate review user1 w1).2
  = Raise (HTTPException 500 ("AI generation failed: " +:+ err_str e))
  ∧ (endpoint review uid w).2
    = Raise (HTTPException 500 ("AI generation failed: " +:+ err_str e))
  ∧ users_db (endpoint review uid w).1 = users_db w
  ∧ users_db (endpoint review uid w).1 !! uid = Some user.
Proof.
  intros Hdb Hcheck Htier Hprov Hcls.
  destruct (check_usage_limit_frame _ _ _ _ _ Hcheck) as (Ht & _ & _ & Hd & _).
  rewrite <- Ht in Htier.
  pose proof (generate_ai_responses_provider_error review user1 w1 policy e
                Htier Hprov Hcls) as Hgen.
  pose proof (generate_ai_responses_frame review user1 w1) as Hframe.
  rewrite (generate_responses_after_check _ _ _ _ _ _ _ Hdb Hcheck).
  destruct (generate review user1 w1) as [w2 g]. simpl in *. subst g. simpl.
  rewrite Hframe, Hd. done.
Qed.

(** C1. If the stored profile passes the check, the provider returns a
    text, and json.loads raises JSONDecodeError on the cleaned text, then
    generation raises nothing and returns the three fallback entries, styled
    "Short & Sweet", "Detailed & Personal", "Professional & Branded" and
    computed from the rating, the business name, the signature and the
    sentiment; the endpoint answers with them and stores the profile with
    the counter the check left plus one, which is the stored counter plus
    one unless the check reset it. *)
Theorem unparseable_text_gives_fallback (review : ReviewInput) (uid : string)
    (w w1 : World) (user user1 : UserProfile) (remaining : Z)
    (policy : TierPolicy) (text : string) (e : py_error) :
  (∀ ds : list dict, validate_responses (JArr (map JObj ds)) = Ok ds) →
  users_db w !! uid = Some user →
  check_usage_limit clock user w = (user1, w1, Ok remaining) →
  TIER_LIMITS !! subscription_tier user = Some policy →
  provider (length (provider_log w1))
    (build_prompt review user1 (response_count policy)) = Ok text →
  json_loads (clean text) = Raise e →
  is_JSONDecodeError (err_class e) = true →
  let fallback :=
    fallback_responses (rating review) (business_name user) (signature user)
      (sentiment_of (rating review)) in
  (generate review user1 w1).2 = Ok (JArr (map JObj fallback))
  ∧ length fallback = 3%nat
  ∧ styles fallback = fallback_styles
  ∧ (endpoint review uid w).2
    = Ok {| responses := fallback; usage_remaining := remaining - 1 |}
  ∧ users_db (endpoint review uid w).1 !! uid
    = Some (set_usage_count (usage_count user1 + 1) user1)
  ∧ (reset_due clock user w = false →
     usage_count user1 + 1 = usage_count user + 1).
Proof.
  intros Hval Hdb Hcheck Htier Hprov Hjson Hcls fallback.
  destruct (check_usage_limit_frame _ _ _ _ _ Hcheck) as (Ht & Hb & Hs & _).
  rewrite <- Ht in Htier.
  pose proof (generate_ai_responses_unparseable review user1 w1 policy text e
                Htier Hprov Hjson Hcls) as Hgen.
  rewrite Hb, Hs in Hgen. fold fallback in Hgen.
  rewrite (generate_responses_after_check _ _ _ _ _ _ _ Hdb Hcheck).
  destruct (generate review user1 w1) as [w2 g]. cbn [snd] in Hgen. subst g.
  cbv beta iota zeta. rewrite Hval. cbn [fst snd users_db set_users_db].
  repeat split; try done.
  - apply lookup_insert_eq.
  - intros Hdue. rewrite (check_usage_limit_count _ _ _ _ _ Hcheck), Hdue. done.
Qed.

(** C10. If the stored profile passes the check, the provider returns a
    text, and the cleaned text parses as a JSON object without the key
    "responses", generation returns the empty list, neither the fallback
    entries nor an error; the endpoint answers with an empty responses list
    and stores the profile with the counter the check left plus one. *)
Theorem missing_responses_key_gives_empty_list (review : ReviewInput)
    (uid : string) (w w1 : World) (user user1 : UserProfile) (remaining : Z)
    (policy : TierPolicy) (text : string) (fields : dict) :
  validate_responses (JArr []) = Ok [] →
  users_db w !! uid = Some user →
  check_usage_limit clock user w = (user1, w1, Ok remaining) →
  TIER_LIMITS !! subscription_tier user = Some policy →
  provider (length (provider_log w1))
    (build_prompt review user1 (response_count policy)) = Ok text →
  json_loads (clean text) = Ok (JObj fields) →
  dict_get "responses" fields = None →
  (generate review user1 w1).2 = Ok (JArr [])
  ∧ (endpoint review uid w).2
    = Ok {| responses := []; usage_remaining := remaining - 1 |}
  ∧ users_db (endpoint review uid w).1 !! uid
    = Some (set_usage_count (usage_count user1 + 1) user1)
  ∧ (reset_due clock user w = false →
     usage_count user1 + 1 = usage_count user + 1).
Proof.
  intros Hval Hdb Hcheck Htier Hprov Hjson Hkey.
  destruct (check_usage_limit_frame _ _ _ _ _ Hcheck) as (Ht & _).
  rewrite <- Ht in Htier.
  pose proof (generate_ai_responses_parsed review user1 w1 policy text _
                Htier Hprov Hjson) as Hgen.
  simpl in Hgen. rewrite Hkey in Hgen.
  rewrite (generate_responses_after_check _ _ _ _ _ _ _ Hdb Hcheck).
  destruct (generate review user1 w1) as [w2 g]. cbn [snd] in Hgen. subst g.
  cbv beta iota zeta. rewrite Hval. cbn [fst snd users_db set_users_db].
  repeat split; try done.
  - apply lookup_insert_eq.
  - intros Hdue. rewrite (check_usage_limit_count _ _ _ _ _ Hcheck), Hdue. done.
Qed.

(** C6, as the code has it. For a stored profile whose reset date lies in
    the past, the check resets the request's own copy of the profile and
    then returns: with the counter at 0 it cannot raise the 429. The store
    receives that copy, with counter 1 and the new date, only when
    generation goes on to return; when generation raises, the endpoint
    raises the same exception and the store is left as it was. *)
Theorem rollover_stored_only_on_success (review : ReviewInput) (uid : string)
    (w : World) (user : UserProfile) (policy : TierPolicy) (t : Z) :
  users_db w !! uid = Some user →
  TIER_LIMITS !! subscription_tier user = Some policy →
  usage_reset_date user = Some (Instant t) →
  t < clock (time_reads w) →
  let rolled :=
    set_usage_reset_date
      (Some (Instant (clock (S (time_reads w)) + thirty_days)))
      (set_usage_count 0 user) in
  ∃ (w1 : World) (remaining : Z),
    check_usage_limit clock user w = (rolled, w1, Ok remaining)
    ∧ match generate review rolled w1 with
      | (w2, Raise e) =>
        endpoint review uid w = (w2, Raise e) ∧ users_db w2 = users_db w
      | (w2, Ok _) =>
        users_db (endpoint review uid w).1
        = <[uid := set_usage_count 1 rolled]> (users_db w)
      end.
Proof.
  intros Hdb Htier Hdate Hpast rolled.
  destruct (reset_if_new_month_past clock user w t Hdate Hpast) as [Hu Hr].
  destruct (reset_if_new_month clock user w) as [[u1 w1] r] eqn:E.
  cbn [fst snd] in Hu, Hr. subst r. fold rolled in Hu. subst u1.
  pose proof (check_usage_limit_after_reset _ _ _ _ _ _ Htier E) as Hcheck.
  assert (Hpass : negb (monthly_limit policy =? -1)%Z
                  && (usage_count rolled >=? monthly_limit policy)%Z = false).
  { destruct (Z.eqb_spec (monthly_limit policy) (-1)) as [|Hfin]; [done|].
    pose proof (finite_limit_positive _ _ Htier Hfin). simpl.
    destruct (Z.geb_spec 0 (monthly_limit policy)); [lia | done]. }
  rewrite Hpass in Hcheck.
  eexists w1, _. split; [exact Hcheck|].
  destruct (check_usage_limit_frame _ _ _ _ _ Hcheck) as (_ & _ & _ & Hd & _).
  pose proof (generate_ai_responses_frame review rolled w1) as Hframe.
  rewrite (generate_responses_after_check _ _ _ _ _ _ _ Hdb Hcheck).
  destruct (generate review rolled w1) as [w2 [rs|e]]; cbn [fst] in Hframe.
  - cbv zeta. destruct (validate_responses rs);
      cbn [fst users_db set_users_db]; by rewrite Hframe, Hd.
  - split; [done|]. by rewrite Hframe, Hd.
Qed.

End Generation.

(** C9. Two runs of generate_ai_responses that both end at the fallback
    return, whatever their providers, parsers, worlds and the other fields
    of their reviews and profiles, return the same value as soon as the
    rating, the business name and the signature agree. *)
Theorem fallback_deterministic
    (provider1 provider2 : nat -> string -> result py_error string)
    (json_loads1 json_loads2 : string -> result py_error json)
    (review1 review2 : ReviewInput) (profile1 profile2 : UserProfile)
    (w1 w2 : World) (policy1 policy2 : TierPolicy) (text1 text2 : string)
    (e1 e2 : py_error) :
  rating review1 = rating review2 →
  business_name profile1 = business_name profile2 →
  signature profile1 = signature profile2 →
  TIER_LIMITS !! subscription_tier profile1 = Some policy1 →
  TIER_LIMITS !! subscription_tier profile2 = Some policy2 →
  provider1 (length (provider_log w1))
    (build_prompt review1 profile1 (response_count policy1)) = Ok text1 →
  provider2 (length (provider_log w2))
    (build_prompt review2 profile2 (response_count policy2)) = Ok text2 →
  json_loads1 (clean text1) = Raise e1 →
  json_loads2 (clean text2) = Raise e2 →
  is_JSONDecodeError (err_class e1) = true →
  is_JSONDecodeError (err_class e2) = true →
  (generate_ai_responses provider1 json_loads1 review1 profile1 w1).2
  = (generate_ai_responses provider2 json_loads2 review2 profile2 w2).2.
Proof.
  intros Hr Hb Hs Ht1 Ht2 Hp1 Hp2 Hj1 Hj2 Hc1 Hc2.
  rewrite (generate_ai_responses_unparseable _ _ _ _ _ _ _ _ Ht1 Hp1 Hj1 Hc1).
  rewrite (generate_ai_responses_unparseable _ _ _ _ _ _ _ _ Ht2 Hp2 Hj2 Hc2).
  by rewrite Hr, Hb, Hs.
Qed.

(** ** The properties at the sample data *)

Lemma strict_validate_dicts (ds : list dict) :
  strict_validate (JArr (map JObj ds)) = Ok ds.
Proof.
  unfold strict_validate.
  assert (H : all_dicts (map JObj ds) = Some ds).
  { induction ds as [|d ds IH]; [done|]. simpl. by rewrite IH. }
  by rewrite H.
Qed.

Lemma reset_timestamp_update_witness :
  usage_reset_date (check_usage_limit sample_clock pro_profile
                      (sample_world pro_profile)).1.1
  = Some (Instant (1700000000000000 + 2592000000000))
  ∧ usage_count (check_usage_limit sample_clock stale_profile
                   (sample_world stale_profile)).1.1 = 0
  ∧ usage_reset_date (check_usage_limit sample_clock stale_profile
                        (sample_world stale_profile)).1.1
    = Some (Instant (1700000000000001 + 2592000000000)).
Proof.
  assert (Hpro : TIER_LIMITS !! subscription_tier pro_profile
                 = Some {| monthly_limit := 500; response_count := 3 |})
    by reflexivity.
  assert (Hfree : TIER_LIMITS !! subscription_tier stale_profile
                  = Some {| monthly_limit := 10; response_count := 3 |})
    by reflexivity.
  destruct (reset_timestamp_update sample_clock pro_profile
              (sample_world pro_profile) _ Hpro) as (_ & Hunset & _).
  destruct (reset_timestamp_update sample_clock stale_profile
              (sample_world stale_profile) _ Hfree) as (_ & _ & Hpast).
  split.
  - apply Hunset. reflexivity.
  - apply (Hpast 0); [reflexivity | vm_compute; reflexivity].
Defined.

Lemma remaining_quota_witness :
  (check_usage_limit sample_clock pro_profile (sample_world pro_profile)).2
  = Ok 497
  ∧ 497 = 500 - usage_count (check_usage_limit sample_clock pro_profile
                               (sample_world pro_profile)).1.1.
Proof.
  split; [reflexivity|].
  refine (proj1 (proj1 (remaining_quota sample_clock pro_profile
                          (check_usage_limit sample_clock pro_profile
                             (sample_world pro_profile)).1.1
                          (sample_world pro_profile)
                          (check_usage_limit sample_clock pro_profile
                             (sample_world pro_profile)).1.2
                          {| monthly_limit := 500; response_count := 3 |}
                          497 _ _) _)).
  - reflexivity.
  - vm_compute. reflexivity.
  - simpl. lia.
Defined.

Lemma quota_exceeded_witness :
  usage_count at_limit_profile = 10
  ∧ (generate_responses sample_clock provider_prose sample_json_loads
       strict_validate (sample_review 5) "u1"
       (sample_world at_limit_profile)).2
    = Raise (HTTPException 429 quota_message)
  ∧ users_db (generate_responses sample_clock provider_prose
                sample_json_loads strict_validate (sample_review 5) "u1"
                (sample_world at_limit_profile)).1 !! "u1"
    = Some at_limit_profile.
Proof.
  split; [reflexivity|].
  destruct (quota_exceeded sample_clock provider_prose sample_json_loads
              strict_validate (sample_review 5) "u1"
              (sample_world at_limit_profile)
              (reset_if_new_month sample_clock at_limit_profile
                 (sample_world at_limit_profile)).1.2
              at_limit_profile
              (reset_if_new_month sample_clock at_limit_profile
                 (sample_world at_limit_profile)).1.1
              {| monthly_limit := 10; response_count := 3 |})
    as (_ & Hend & _ & _ & Hdb).
  - reflexivity.
  - reflexivity.
  - simpl. lia.
  - reflexivity.
  - simpl. lia.
  - rewrite Hend. split; [reflexivity | exact Hdb].
Defined.

Lemma provider_failure_is_fatal_witness :
  (generate_responses sample_clock provider_down sample_json_loads
     strict_validate (sample_review 5) "u1" (sample_world pro_profile)).2
  = Raise (HTTPException 500 "AI generation failed: Connection error.")
  ∧ users_db (generate_responses sample_clock provider_down
                sample_json_loads strict_validate (sample_review 5) "u1"
                (sample_world pro_profile)).1 !! "u1"
    = Some pro_profile.
Proof.
  destruct (provider_failure_is_fatal sample_clock provider_down
              sample_json_loads strict_validate (sample_review 5) "u1"
              (sample_world pro_profile)
              (check_usage_limit sample_clock pro_profile
                 (sample_world pro_profile)).1.2
              pro_profile
              (check_usage_limit sample_clock pro_profile
                 (sample_world pro_profile)).1.1
              497
              {| monthly_limit := 500; response_count := 3 |}
              (PyError (OtherException "APIConnectionError")
                 "Connection error."))
    as (_ & Hend & _ & Hdb).
  - reflexivity.
  - vm_compute. reflexivity.
  - reflexivity.
  - reflexivity.
  - reflexivity.
  - split; [exact Hend | exact Hdb].
Defined.

Lemma unparseable_text_gives_fallback_witness :
  (generate_responses sample_clock provider_prose sample_json_loads
     strict_validate (sample_review 5) "u1" (sample_world pro_profile)).2
  = Ok {| responses :=
            fallback_responses 5 "Cafe Luna" (Some "- The Team") "positive";
          usage_remaining := 496 |}
  ∧ users_db (generate_responses sample_clock provider_prose
                sample_json_loads strict_validate (sample_review 5) "u1"
                (sample_world pro_profile)).1 !! "u1"
    = Some (sample_profile "pro" 4
              (Some (Instant (1700000000000000 + 2592000000000)))).
Proof.
  destruct (unparseable_text_gives_fallback sample_clock provider_prose
              sample_json_loads strict_validate (sample_review 5) "u1"
              (sample_world pro_profile)
              (check_usage_limit sample_clock pro_profile
                 (sample_world pro_profile)).1.2
              pro_profile
              (check_usage_limit sample_clock pro_profile
                 (sample_world pro_profile)).1.1
              497
              {| monthly_limit := 500; response_count := 3 |}
              "Sure! Here are three replies you could post."
              (PyError JSONDecodeError
                 "Expecting value: line 1 column 1 (char 0)"))
    as (_ & _ & _ & Hend & Hdb & _).
  - exact strict_validate_dicts.
  - reflexivity.
  - vm_compute. reflexivity.
  - reflexivity.
  - reflexivity.
  - vm_compute. reflexivity.
  - reflexivity.
  - split; [exact Hend | exact Hdb].
Defined.

Lemma missing_responses_key_gives_empty_list_witness :
  (generate_responses sample_clock provider_empty_object sample_json_loads
     strict_validate (sample_review 2) "u1" (sample_world pro_profile)).2
  = Ok {| responses := []; usage_remaining := 496 |}
  ∧ users_db (generate_responses sample_clock provider_empty_object
                sample_json_loads strict_validate (sample_review 2) "u1"
                (sample_world pro_profile)).1 !! "u1"
    = Some (sample_profile "pro" 4
              (Some (Instant (1700000000000000 + 2592000000000)))).
Proof.
  destruct (missing_responses_key_gives_empty_list sample_clock
              provider_empty_object sample_json_loads strict_validate
              (sample_review 2) "u1" (sample_world pro_profile)
              (check_usage_limit sample_clock pro_profile
                 (sample_world pro_profile)).1.2
              pro_profile
              (check_usage_limit sample_clock pro_profile
                 (sample_world pro_profile)).1.1
              497
              {| monthly_limit := 500; response_count := 3 |}
              ("```json" +:+ nl +:+ "{}" +:+ nl +:+ "```")
              [])
    as (_ & Hend & Hdb & _).
  - reflexivity.
  - reflexivity.
  - vm_compute. reflexivity.
  - reflexivity.
  - reflexivity.
  - vm_compute. reflexivity.
  - reflexivity.
  - split; [exact Hend | exact Hdb].
Defined.

Lemma rollover_stored_only_on_success_witness :
  usage_reset_date stale_profile = Some (Instant 0)
  ∧ users_db (generate_responses sample_clock provider_prose
                sample_json_loads strict_validate (sample_review 5) "u1"
                (sample_world stale_profile)).1
    = <["u1" := sample_profile "free" 1
                  (Some (Instant (1700000000000001 + 2592000000000)))]>
        (users_db (sample_world stale_profile)).
Proof.
  split; [reflexivity|].
  destruct (rollover_stored_only_on_success sample_clock provider_prose
              sample_json_loads strict_validate (sample_review 5) "u1"
              (sample_world stale_profile) stale_profile
              {| monthly_limit := 10; response_count := 3 |} 0)
    as (w1 & remaining & _ & Hstore).
  - reflexivity.
  - reflexivity.
  - reflexivity.
  - vm_compute. reflexivity.
  - exact Hstore.
Defined.

(** C6, as stated, fails: the stored profile is due for a reset, the
    provider is down, the request ends with status 500, and the store still
    holds the old counter and the old date. *)
Lemma rollover_lost_when_generation_fails :
  reset_due sample_clock stale_profile (sample_world stale_profile) = true
  ∧ (generate_responses sample_clock provider_down sample_json_loads
       strict_validate (sample_review 5) "u1"
       (sample_world stale_profile)).2
    = Raise (HTTPException 500 "AI generation failed: Connection error.")
  ∧ users_db (generate_responses sample_clock provider_down
                sample_json_loads strict_validate (sample_review 5) "u1"
                (sample_world stale_profile)).1 !! "u1"
    = Some (sample_profile "free" 7 (Some (Instant 0)))
  ∧ ¬ (∃ stored : UserProfile,
         users_db (generate_responses sample_clock provider_down
                     sample_json_loads strict_validate (sample_review 5)
                     "u1" (sample_world stale_profile)).1 !! "u1"
         = Some stored
         ∧ usage_count stored = 0
         ∧ usage_reset_date stored
           = Some (Instant (sample_clock 1 + thirty_days))).
Proof.
  split; [reflexivity|]. split; [reflexivity|]. split; [reflexivity|].
  intros (stored & Hstored & Hcount & _).
  vm_compute in Hstored. injection Hstored as <-. discriminate Hcount.
Qed.

Lemma fallback_deterministic_witness :
  review_text (sample_review 5) ≠ review_text other_review
  ∧ subscription_tier pro_profile ≠ subscription_tier enterprise_profile
  ∧ (generate_ai_responses provider_prose sample_json_loads (sample_review 5)
       pro_profile (sample_world pro_profile)).2
    = (generate_ai_responses provider_html sample_json_loads other_review
         enterprise_profile (sample_world stale_profile)).2.
Proof.
  split; [discriminate|]. split; [discriminate|].
  apply (fallback_deterministic provider_prose provider_html
           sample_json_loads sample_json_loads (sample_review 5) other_review
           pro_profile enterprise_profile (sample_world pro_profile)
           (sample_world stale_profile)
           {| monthly_limit := 500; response_count := 3 |}
           {| monthly_limit := -1; response_count := 5 |}
           "Sure! Here are three replies you could post."
           "<html>502 Bad Gateway</html>"
           (PyError JSONDecodeError "Expecting value: line 1 column 1 (char 0)")
           (PyError JSONDecodeError "Expecting value: line 1 column 1 (char 0)"));
    try reflexivity; vm_compute; reflexivity.
Defined.

(** ** Further checks of the model on the specification's examples *)

(** A free-tier profile at its limit whose reset date has passed is let
    through: the check resets the counter first. *)
Example at_limit_but_reset_due :
  (check_usage_limit sample_clock (sample_profile "free" 10 (Some (Instant 0)))
     (sample_world (sample_profile "free" 10 (Some (Instant 0))))).2 = Ok 10.
Proof. reflexivity. Qed.

(** The unlimited tier gets the sentinel whatever the counter. *)
Example enterprise_sentinel :
  (check_usage_limit sample_clock enterprise_profile
     (sample_world enterprise_profile)).2 = Ok 999.
Proof. reflexivity. Qed.

(** A parsed value that is not an object has no [get]: the second handler
    turns the AttributeError into status 500. *)
Example parsed_list_is_fatal :
  (generate_ai_responses provider_prose (fun _ => Ok (JArr []))
     (sample_review 5) pro_profile (sample_world pro_profile)).2
  = Raise (HTTPException 500
      "AI generation failed: 'list' object has no attribute 'get'").
Proof. reflexivity. Qed.

(** The first lines of the prompt for a five-star review. *)
Example prompt_head :
  starts_with
    (list_ascii_of_string
       ("You are responding to a positive review for Cafe Luna, a coffee shop."
        +:+ nl +:+ nl
        +:+ "Review (5 stars) from customer on google:" +:+ nl
        +:+ dq +:+ "Great espresso." +:+ dq +:+ nl
        +:+ nl +:+ nl +:+ "Always end with: - The Team" +:+ nl +:+ nl
        +:+ "Generate 3 different response options with a professional tone:"))
    (list_ascii_of_string (build_prompt (sample_review 5) pro_profile 3))
  = true.
Proof. reflexivity. Qed.

(** * Further properties of the code *)

(** ** The usage check outside the reset and limit cases *)

Section UsageCheckEdges.

Variable clock : nat -> Z.

(** Until the clock has passed the stored reset date (a reading equal to the
    date does not count as passed), check_usage_limit leaves the profile as
    it is and reads the clock once. *)
Theorem check_keeps_profile_until_reset_date (user : UserProfile) (w : World)
    (policy : TierPolicy) (d : Z) :
  TIER_LIMITS !! subscription_tier user = Some policy →
  usage_reset_date user = Some (Instant d) →
  clock (time_reads w) <= d →
  (check_usage_limit clock user w).1.1 = user
  ∧ time_reads (check_usage_limit clock user w).1.2 = S (time_reads w).
Proof.
  intros Htier Hdate Hle.
  assert (Hreset : reset_if_new_month clock user w
                   = (user, (datetime_now clock w).2, Ok tt)).
  { unfold reset_if_new_month. rewrite Hdate. simpl.
    destruct (Z.gtb_spec (clock (time_reads w)) d); [lia | done]. }
  rewrite (check_usage_limit_after_reset _ _ _ _ _ _ Htier Hreset). done.
Qed.

(** An empty string in usage_reset_date is falsy: the check treats the
    profile exactly as if the date were None. *)
Theorem blank_reset_date_is_unset (user : UserProfile) (w : World)
    (policy : TierPolicy) :
  TIER_LIMITS !! subscription_tier user = Some policy →
  usage_reset_date user = Some Blank →
  check_usage_limit clock user w
  = check_usage_limit clock (set_usage_reset_date None user) w.
Proof.
  intros Htier Hdate. unfold check_usage_limit, reset_if_new_month.
  simpl. rewrite Htier, Hdate. done.
Qed.

(** The unlimited tier is never refused: whatever the counter, a profile on
    "enterprise" whose reset date can be read gets the sentinel 999. *)
Theorem enterprise_is_never_refused (user : UserProfile) (w : World) :
  subscription_tier user = "enterprise" →
  (∀ msg, usage_reset_date user ≠ Some (Malformed msg)) →
  (∀ msg, usage_reset_date user ≠ Some (Aware msg)) →
  (check_usage_limit clock user w).2 = Ok 999.
Proof.
  intros Htier Hm Ha.
  assert (Hpol : TIER_LIMITS !! subscription_tier user
                 = Some {| monthly_limit := -1; response_count := 5 |})
    by (by rewrite Htier).
  destruct (reset_if_new_month clock user w) as [[u1 w1] r] eqn:E.
  assert (r = Ok tt) as ->.
  { revert E. unfold reset_if_new_month, datetime_now.
    destruct (usage_reset_date user) as [[ | t | msg | msg] | ];
      try (by intros [= _ _ <-]).
    - simpl. destruct (_ >? _)%Z; by intros [= _ _ <-].
    - by destruct (Hm msg).
    - by destruct (Ha msg). }
  by rewrite (check_usage_limit_after_reset _ _ _ _ _ _ Hpol E).
Qed.

End UsageCheckEdges.

Lemma check_keeps_profile_until_reset_date_witness :
  (check_usage_limit sample_clock enterprise_profile
     (sample_world enterprise_profile)).1.1 = enterprise_profile.
Proof.
  refine (proj1 (check_keeps_profile_until_reset_date sample_clock
                   enterprise_profile (sample_world enterprise_profile)
                   {| monthly_limit := -1; response_count := 5 |}
                   1800000000000000 _ _ _)).
  - reflexivity.
  - reflexivity.
  - vm_compute. discriminate.
Defined.

Lemma blank_reset_date_is_unset_witness :
  (check_usage_limit sample_clock (sample_profile "free" 2 (Some Blank))
     (sample_world pro_profile)).2 = Ok 8
  ∧ check_usage_limit sample_clock (sample_profile "free" 2 (Some Blank))
      (sample_world pro_profile)
    = check_usage_limit sample_clock
        (set_usage_reset_date None (sample_profile "free" 2 (Some Blank)))
        (sample_world pro_profile).
Proof.
  split; [reflexivity|].
  apply (blank_reset_date_is_unset sample_clock _ _
           {| monthly_limit := 10; response_count := 3 |});
    reflexivity.
Defined.

Lemma enterprise_is_never_refused_witness :
  usage_count enterprise_profile = 1200
  ∧ (check_usage_limit sample_clock enterprise_profile
       (sample_world enterprise_profile)).2 = Ok 999.
Proof.
  split; [reflexivity|].
  apply enterprise_is_never_refused; [reflexivity | discriminate | discriminate].
Defined.

(** ** Generation: provider calls and the shapes of the reply *)

Section GenerationEdges.

Variable provider : nat -> string -> result py_error string.
Variable json_loads : string -> result py_error json.

Abbreviation generate' := (generate_ai_responses provider json_loads).

(** For a known tier, generate_ai_responses calls the provider exactly once,
    with the prompt built from its arguments and the tier's response count,
    however the call and the parsing end; it reads no clock and writes no
    profile. *)
Theorem generate_calls_provider_once (review : ReviewInput)
    (profile : UserProfile) (w : World) (policy : TierPolicy) :
  TIER_LIMITS !! subscription_tier profile = Some policy →
  (generate' review profile w).1
  = {| users_db := users_db w; time_reads := time_reads w;
       provider_log :=
         (provider_log w
          ++ [build_prompt review profile (response_count policy)])%list |}.
Proof.
  intros Htier. unfold generate_ai_responses, try_generate, call_provider.
  rewrite Htier.
  destruct (provider _ _) as [text|e]; simpl.
  - destruct (json_loads _) as [parsed|e]; simpl.
    + by destruct (get_responses parsed) as [v|e];
        [|destruct (is_JSONDecodeError _)].
    + by destruct (is_JSONDecodeError _).
  - by destruct (is_JSONDecodeError _).
Qed.


(** A reply that parses to anything but a JSON object (a bare list, a
    string, a number, null) has no [get]: the AttributeError is caught by
    the second handler and becomes HTTPException 500, not the fallback. *)
Theorem non_object_reply_is_fatal (review : ReviewInput)
    (profile : UserProfile) (w : World) (policy : TierPolicy)
    (text : string) (parsed : json) :
  TIER_LIMITS !! subscription_tier profile = Some policy →
  provider (length (provider_log w))
    (build_prompt review profile (response_count policy)) = Ok text →
  json_loads (clean text) = Ok parsed →
  (∀ fields : dict, parsed ≠ JObj fields) →
  (generate' review profile w).2
  = Raise (HTTPException 500
      ("AI generation failed: '" +:+ type_name parsed
       +:+ "' object has no attribute 'get'")).
Proof.
  intros Htier Hprov Hjson Hshape.
  rewrite (generate_ai_responses_parsed _ _ _ _ _ _ _ _ Htier Hprov Hjson).
  destruct parsed; try done. by destruct (Hshape fields).
Qed.

(** When the parsed object has a "responses" key, its value is returned as
    it is, whatever its type and however many entries it has: nothing pads
    or cuts it to the tier's response count. *)
Theorem parsed_responses_returned_as_is (review : ReviewInput)
    (profile : UserProfile) (w : World) (policy : TierPolicy)
    (text : string) (fields : dict) (v : json) :
  TIER_LIMITS !! subscription_tier profile = Some policy →
  provider (length (provider_log w))
    (build_prompt review profile (response_count policy)) = Ok text →
  json_loads (clean text) = Ok (JObj fields) →
  dict_get "responses" fields = Some v →
  (generate' review profile w).2 = Ok v.
Proof.
  intros Htier Hprov Hjson Hkey.
  rewrite (generate_ai_responses_parsed _ _ _ _ _ _ _ _ Htier Hprov Hjson).
  simpl. by rewrite Hkey.
Qed.

(** An exception of json.loads that is not a JSONDecodeError (a
    RecursionError on deeply nested text, say) is not answered with the
    fallback: it becomes HTTPException 500 like a provider failure. *)
Theorem other_parser_error_is_fatal (review : ReviewInput)
    (profile : UserProfile) (w : World) (policy : TierPolicy)
    (text : string) (e : py_error) :
  TIER_LIMITS !! subscription_tier profile = Some policy →
  provider (length (provider_log w))
    (build_prompt review profile (response_count policy)) = Ok text →
  json_loads (clean text) = Raise e →
  is_JSONDecodeError (err_class e) = false →
  (generate' review profile w).2
  = Raise (HTTPException 500 ("AI generation failed: " +:+ err_str e)).
Proof.
  intros Htier Hprov Hjson Hcls. unfold generate_ai_responses, try_generate,
    call_provider. rewrite Htier, Hprov, Hjson. simpl. by rewrite Hcls.
Qed.

(** A JSONDecodeError raised by the provider call itself, before any text
    is returned, is caught by the first handler too: the caller gets the
    fallback entries, not an error. *)
Theorem decode_error_in_provider_call_gives_fallback (review : ReviewInput)
    (profile : UserProfile) (w : World) (policy : TierPolicy) (e : py_error) :
  TIER_LIMITS !! subscription_tier profile = Some policy →
  provider (length (provider_log w))
    (build_prompt review profile (response_count policy)) = Raise e →
  is_JSONDecodeError (err_class e) = true →
  (generate' review profile w).2
  = Ok (JArr (map JObj
          (fallback_responses (rating review) (business_name profile)
             (signature profile) (sentiment_of (rating review))))).
Proof.
  intros Htier Hprov Hcls. unfold generate_ai_responses, try_generate,
    call_provider. rewrite Htier, Hprov. simpl. by rewrite Hcls.
Qed.

End GenerationEdges.

(** The second and third fallback texts depend on the rating only through
    the test [rating >= 4]: a three-star review gets the same apology as a
    one-star review, and every rating from 4 up gets the same thanks. *)
Theorem fallback_texts_follow_threshold (r r' : Z) (name : string)
    (sig : option string) :
  (4 <= r ↔ 4 <= r') →
  skipn 1 (fallback_responses r name sig (sentiment_of r))
  = skipn 1 (fallback_responses r' name sig (sentiment_of r')).
Proof.
  intros Hiff. unfold fallback_responses, sentiment_of. simpl.
  destruct (Z.leb_spec 4 r), (Z.leb_spec 4 r'); try lia; try done.
  by destruct (r <=? 2)%Z, (r' <=? 2)%Z.
Qed.

Lemma generate_calls_provider_once_witness :
  provider_log (generate_ai_responses provider_down sample_json_loads
                  (sample_review 5) pro_profile (sample_world pro_profile)).1
  = [build_prompt (sample_review 5) pro_profile 3].
Proof.
  rewrite (generate_calls_provider_once provider_down sample_json_loads
             (sample_review 5) pro_profile (sample_world pro_profile)
             {| monthly_limit := 500; response_count := 3 |});
    reflexivity.
Defined.


Lemma non_object_reply_is_fatal_witness :
  (generate_ai_responses provider_bare_list sample_json_loads_more
     (sample_review 5) pro_profile (sample_world pro_profile)).2
  = Raise (HTTPException 500
      "AI generation failed: 'list' object has no attribute 'get'").
Proof.
  apply (non_object_reply_is_fatal provider_bare_list sample_json_loads_more
           (sample_review 5) pro_profile (sample_world pro_profile)
           {| monthly_limit := 500; response_count := 3 |} "[]" (JArr []));
    [reflexivity | reflexivity | vm_compute; reflexivity | discriminate].
Defined.

Lemma parsed_responses_returned_as_is_witness :
  response_count {| monthly_limit := -1; response_count := 5 |} = 5
  ∧ (generate_ai_responses provider_one_reply sample_json_loads_more
       other_review enterprise_profile (sample_world enterprise_profile)).2
    = Ok (JArr [JObj one_reply]).
Proof.
  split; [reflexivity|].
  apply (parsed_responses_returned_as_is provider_one_reply
           sample_json_loads_more other_review enterprise_profile
           (sample_world enterprise_profile)
           {| monthly_limit := -1; response_count := 5 |}
           ("```json" +:+ nl +:+ one_reply_text +:+ nl +:+ "```")
           [("responses", JArr [JObj one_reply])]);
    [reflexivity | reflexivity | vm_compute; reflexivity | reflexivity].
Defined.

Lemma other_parser_error_is_fatal_witness :
  (generate_ai_responses provider_prose json_loads_exhausted
     (sample_review 5) pro_profile (sample_world pro_profile)).2
  = Raise (HTTPException 500
      "AI generation failed: maximum recursion depth exceeded").
Proof.
  apply (other_parser_error_is_fatal provider_prose json_loads_exhausted
           (sample_review 5) pro_profile (sample_world pro_profile)
           {| monthly_limit := 500; response_count := 3 |}
           "Sure! Here are three replies you could post."
           (PyError (OtherException "RecursionError")
              "maximum recursion depth exceeded"));
    reflexivity.
Defined.

Lemma decode_error_in_provider_call_gives_fallback_witness :
  (generate_ai_responses provider_bad_body sample_json_loads
     (sample_review 2) pro_profile (sample_world pro_profile)).2
  = Ok (JArr (map JObj
          (fallback_responses 2 "Cafe Luna" (Some "- The Team") "negative"))).
Proof.
  apply (decode_error_in_provider_call_gives_fallback provider_bad_body
           sample_json_loads (sample_review 2) pro_profile
           (sample_world pro_profile)
           {| monthly_limit := 500; response_count := 3 |}
           (PyError JSONDecodeError
              "Expecting value: line 1 column 1 (char 0)"));
    reflexivity.
Defined.

Lemma fallback_texts_follow_threshold_witness :
  sentiment_of 3 = "neutral" ∧ sentiment_of 1 = "negative"
  ∧ skipn 1 (fallback_responses 3 "Cafe Luna" None (sentiment_of 3))
    = skipn 1 (fallback_responses 1 "Cafe Luna" None (sentiment_of 1)).
Proof.
  split; [reflexivity|]. split; [reflexivity|].
  apply fallback_texts_follow_threshold. lia.
Defined.

(** ** The /api/generate endpoint as a whole *)

Section EndpointEdges.

Variable clock : nat -> Z.
Variable provider : nat -> string -> result py_error string.
Variable json_loads : string -> result py_error json.
Variable validate_responses : json -> result string (list dict).

Abbreviation generate' := (generate_ai_responses provider json_loads).
Abbreviation endpoint' :=
  (generate_responses clock provider json_loads validate_responses).

(** The check changes the counter and the reset date of the profile object
    and nothing else. *)
Lemma check_usage_limit_shape (user user1 : UserProfile) (w w1 : World)
    (r : result exn Z) :
  check_usage_limit clock user w = (user1, w1, r) →
  user1 = set_usage_reset_date (usage_reset_date user1)
            (set_usage_count (usage_count user1) user).
Proof.
  unfold check_usage_limit.
  destruct (TIER_LIMITS !! subscription_tier user) as [policy|];
    [|intros [= <- _ _]; by destruct user].
  unfold reset_if_new_month, datetime_now.
  destruct (usage_reset_date user) as [[ | t | msg | msg] | ] eqn:Hd; simpl;
    try destruct (clock (time_reads w) >? t)%Z; simpl;
    try destruct (negb _ && _);
    intros [= <- _ _]; destruct user; simpl in *; by subst.
Qed.

Lemma generate_log (review : ReviewInput) (profile : UserProfile) (w : World) :
  ∃ calls : list string,
    provider_log (generate' review profile w).1
    = (provider_log w ++ calls)%list
    ∧ (length calls <= 1)%nat.
Proof.
  unfold generate_ai_responses.
  destruct (TIER_LIMITS !! subscription_tier profile) as [policy|];
    [|exists []; split; [by rewrite app_nil_r | simpl; lia]].
  pose proof (try_generate_frame provider json_loads
                (build_prompt review profile (response_count policy)) w)
    as [_ Hlog].
  destruct (try_generate _ _ _ _) as [[v|e] w1]; simpl in *;
    [|destruct (is_JSONDecodeError _)]; simpl;
    (eexists [_]; split; [exact Hlog | simpl; lia]).
Qed.

(** With a known tier, the only exception generation raises is the 500. *)
Lemma generate_raise_inv (review : ReviewInput) (profile : UserProfile)
    (w : World) (policy : TierPolicy) (e : exn) :
  TIER_LIMITS !! subscription_tier profile = Some policy →
  (generate' review profile w).2 = Raise e →
  ∃ msg : string, e = HTTPException 500 msg.
Proof.
  intros Htier. unfold generate_ai_responses. rewrite Htier.
  destruct (try_generate _ _ _ _) as [[v|e1] w1]; simpl; [done|].
  destruct (is_JSONDecodeError _); [done|]. intros [= <-]. by eexists.
Qed.

Lemma check_ok_tier_known (user user1 : UserProfile) (w w1 : World)
    (remaining : Z) :
  check_usage_limit clock user w = (user1, w1, Ok remaining) →
  ∃ policy : TierPolicy, TIER_LIMITS !! subscription_tier user = Some policy.
Proof.
  unfold check_usage_limit.
  destruct (TIER_LIMITS !! subscription_tier user); [by eexists | done].
Qed.

(** A request never touches the profile of another user, however it ends. *)
Theorem generate_responses_leaves_other_users (review : ReviewInput)
    (uid other : string) (w : World) :
  other ≠ uid →
  users_db (endpoint' review uid w).1 !! other = users_db w !! other.
Proof.
  intros Hne. unfold generate_responses.
  destruct (users_db w !! uid) as [user|]; [|done].
  destruct (check_usage_limit clock user w) as [[user1 w1] [remaining|e]] eqn:Hc;
    destruct (check_usage_limit_frame _ _ _ _ _ _ Hc) as (_ & _ & _ & Hd & _);
    [|by simpl; rewrite Hd].
  pose proof (generate_ai_responses_frame provider json_loads review user1 w1)
    as Hg.
  destruct (generate' review user1 w1) as [w2 [rs|e]]; simpl in Hg.
  - destruct (validate_responses rs); simpl;
      rewrite lookup_insert_ne by done; by rewrite Hg, Hd.
  - simpl. by rewrite Hg, Hd.
Qed.

(** Whenever the request fails with anything but the validation of the
    response, the store is exactly as before: no counter moves, no reset
    date is written. *)
Theorem failed_request_leaves_store (review : ReviewInput) (uid : string)
    (w : World) (e : exn) :
  (endpoint' review uid w).2 = Raise e →
  (∀ msg : string, e ≠ Unhandled ValidationError msg) →
  users_db (endpoint' review uid w).1 = users_db w.
Proof.
  unfold generate_responses.
  destruct (users_db w !! uid) as [user|]; [|done].
  destruct (check_usage_limit clock user w) as [[user1 w1] [remaining|e1]] eqn:Hc;
    destruct (check_usage_limit_frame _ _ _ _ _ _ Hc) as (_ & _ & _ & Hd & _);
    [|done].
  pose proof (generate_ai_responses_frame provider json_loads review user1 w1)
    as Hg.
  destruct (generate' review user1 w1) as [w2 [rs|e2]]; simpl in Hg.
  - destruct (validate_responses rs) as [items|msg]; simpl; [done|].
    intros [= <-] Hnot. by destruct (Hnot msg).
  - simpl. intros _ _. by rewrite Hg, Hd.
Qed.

(** If pydantic rejects the value generation returned (the model answered
    with something that is not a list of objects), the client gets an
    unhandled ValidationError, status 500, although the counter has already
    been incremented and stored: the request still uses up one unit. *)
Theorem rejected_response_still_counts (review : ReviewInput) (uid : string)
    (w w1 w2 : World) (user user1 : UserProfile) (remaining : Z) (rs : json)
    (msg : string) :
  users_db w !! uid = Some user →
  check_usage_limit clock user w = (user1, w1, Ok remaining) →
  generate' review user1 w1 = (w2, Ok rs) →
  validate_responses rs = Raise msg →
  (endpoint' review uid w).2 = Raise (Unhandled ValidationError msg)
  ∧ status_of (Unhandled ValidationError msg) = 500
  ∧ users_db (endpoint' review uid w).1 !! uid
    = Some (set_usage_count (usage_count user1 + 1) user1).
Proof.
  intros Hdb Hcheck Hgen Hval.
  rewrite (generate_responses_after_check _ _ _ _ _ _ _ _ _ _ _ Hdb Hcheck).
  rewrite Hgen. cbv zeta. rewrite Hval. simpl.
  repeat split. apply lookup_insert_eq.
Qed.

(** A request calls the provider at most once, and not at all when it is
    refused before generation (unknown user, unknown tier, unreadable reset
    date, limit reached). *)
Theorem at_most_one_provider_call (review : ReviewInput) (uid : string)
    (w : World) :
  (∃ calls : list string,
     provider_log (endpoint' review uid w).1 = (provider_log w ++ calls)%list
     ∧ (length calls <= 1)%nat)
  ∧ (∀ e : exn,
       (endpoint' review uid w).2 = Raise e →
       (∀ detail : string, e ≠ HTTPException 500 detail) →
       (∀ msg : string, e ≠ Unhandled ValidationError msg) →
       provider_log (endpoint' review uid w).1 = provider_log w).
Proof.
  unfold generate_responses.
  destruct (users_db w !! uid) as [user|];
    [|split; [exists []; split; [by rewrite app_nil_r | simpl; lia] | done]].
  destruct (check_usage_limit clock user w) as [[user1 w1] [remaining|e1]] eqn:Hc;
    destruct (check_usage_limit_frame _ _ _ _ _ _ Hc) as (Ht & _ & _ & _ & Hl);
    [|split; [exists []; simpl; split; [by rewrite Hl, app_nil_r | lia]
             | done]].
  destruct (generate_log review user1 w1) as (calls & Hcalls & Hlen).
  destruct (check_ok_tier_known _ _ _ _ _ Hc) as [policy Hpol].
  rewrite <- Ht in Hpol.
  pose proof (generate_raise_inv review user1 w1 policy) as Hrange.
  destruct (generate' review user1 w1) as [w2 [rs|e2]] eqn:Hg;
    simpl in Hcalls.
  - split.
    + exists calls. destruct (validate_responses rs); simpl;
        split; try done; by rewrite Hcalls, Hl.
    + destruct (validate_responses rs) as [items|msg]; simpl; [done|].
      intros e [= <-] _ Hnot. by destruct (Hnot msg).
  - split; [exists calls; simpl; split; [by rewrite Hcalls, Hl | done]|].
    simpl. intros e [= <-] Hnot500 _.
    destruct (Hrange e2 Hpol eq_refl) as [m ->]. by destruct (Hnot500 m).
Qed.

(** A request that succeeds changes, in the stored profile, the counter and
    the reset date and nothing else; the stored counter is the old one (or 0
    if the reset was due) plus one; and the usage_remaining sent to the
    client agrees with it: the tier's limit minus the stored counter, never
    negative, or 998 on the unlimited tier. *)
Theorem successful_request_effect (review : ReviewInput) (uid : string)
    (w : World) (user : UserProfile) (out : ResponseOutput) :
  users_db w !! uid = Some user →
  (endpoint' review uid w).2 = Ok out →
  ∃ (stored : UserProfile) (policy : TierPolicy),
    users_db (endpoint' review uid w).1 !! uid = Some stored
    ∧ TIER_LIMITS !! subscription_tier user = Some policy
    ∧ stored = set_usage_reset_date (usage_reset_date stored)
                 (set_usage_count (usage_count stored) user)
    ∧ usage_count stored
      = (if reset_due clock user w then 0 else usage_count user) + 1
    ∧ usage_remaining out
      = (if negb (monthly_limit policy =? -1)%Z
         then monthly_limit policy - usage_count stored
         else 998)
    ∧ 0 <= usage_remaining out.
Proof.
  intros Hdb. unfold generate_responses. rewrite Hdb.
  destruct (check_usage_limit clock user w) as [[user1 w1] [remaining|e]] eqn:Hc;
    [|done].
  destruct (check_ok_tier_known _ _ _ _ _ Hc) as [policy Hpol].
  pose proof (check_usage_limit_shape _ _ _ _ _ Hc) as Hshape.
  pose proof (check_usage_limit_count _ _ _ _ _ _ Hc) as Hcount.
  pose proof (check_usage_limit_ok_inv _ _ _ _ _ _ Hc) as Hreset.
  rewrite (check_usage_limit_after_reset _ _ _ _ _ _ Hpol Hreset) in Hc.
  destruct (generate' review user1 w1) as [w2 [rs|e]]; [|done].
  cbv zeta. destruct (validate_responses rs) as [items|msg]; [|done].
  cbn [fst snd users_db set_users_db]. intros [= <-].
  exists (set_usage_count (usage_count user1 + 1) user1), policy.
  split; [apply lookup_insert_eq|]. split; [done|].
  split; [rewrite Hshape at 2; by destruct user|].
  split; [simpl; by rewrite Hcount|]. simpl.
  destruct (Z.eqb_spec (monthly_limit policy) (-1)); simpl in *.
  - injection Hc as <-. split; lia.
  - destruct (Z.geb_spec (usage_count user1) (monthly_limit policy));
      [done|]. injection Hc as <-. split; lia.
Qed.

(** A stored reset date that cannot be read makes every request of that
    user fail with an unhandled exception (status 500) before the limit is
    looked at and before any provider call; the store is not written. *)
Theorem unreadable_reset_date_fails_request (review : ReviewInput)
    (uid : string) (w : World) (user : UserProfile) (policy : TierPolicy)
    (msg : string) :
  users_db w !! uid = Some user →
  TIER_LIMITS !! subscription_tier user = Some policy →
  (usage_reset_date user = Some (Malformed msg) →
   endpoint' review uid w = (w, Raise (Unhandled ValueError msg)))
  ∧ (usage_reset_date user = Some (Aware msg) →
     (endpoint' review uid w).2 = Raise (Unhandled TypeError msg)
     ∧ users_db (endpoint' review uid w).1 = users_db w
     ∧ provider_log (endpoint' review uid w).1 = provider_log w).
Proof.
  intros Hdb Htier. unfold generate_responses, check_usage_limit,
    reset_if_new_month. rewrite Hdb, Htier.
  split; intros ->; done.
Qed.

End EndpointEdges.

Lemma generate_responses_leaves_other_users_witness :
  users_db (generate_responses sample_clock provider_prose sample_json_loads
              strict_validate (sample_review 5) "u1" two_user_world).1 !! "u2"
  = Some enterprise_profile.
Proof.
  rewrite (generate_responses_leaves_other_users sample_clock provider_prose
             sample_json_loads strict_validate (sample_review 5) "u1" "u2"
             two_user_world);
    [reflexivity | discriminate].
Defined.

Lemma failed_request_leaves_store_witness :
  users_db (generate_responses sample_clock provider_prose sample_json_loads
              strict_validate (sample_review 5) "u1"
              (sample_world at_limit_profile)).1
  = users_db (sample_world at_limit_profile).
Proof.
  apply (failed_request_leaves_store sample_clock provider_prose
           sample_json_loads strict_validate (sample_review 5) "u1"
           (sample_world at_limit_profile)
           (HTTPException 429 quota_message));
    [reflexivity | discriminate].
Defined.

Lemma rejected_response_still_counts_witness :
  (generate_responses sample_clock provider_string_reply
     sample_json_loads_more strict_validate (sample_review 5) "u1"
     (sample_world pro_profile)).2
  = Raise (Unhandled ValidationError "Input should be a valid list")
  ∧ users_db (generate_responses sample_clock provider_string_reply
                sample_json_loads_more strict_validate (sample_review 5) "u1"
                (sample_world pro_profile)).1 !! "u1"
    = Some (sample_profile "pro" 4
              (Some (Instant (1700000000000000 + 2592000000000)))).
Proof.
  destruct (rejected_response_still_counts sample_clock provider_string_reply
              sample_json_loads_more strict_validate (sample_review 5) "u1"
              (sample_world pro_profile)
              (check_usage_limit sample_clock pro_profile
                 (sample_world pro_profile)).1.2
              (generate_ai_responses provider_string_reply
                 sample_json_loads_more (sample_review 5)
                 (check_usage_limit sample_clock pro_profile
                    (sample_world pro_profile)).1.1
                 (check_usage_limit sample_clock pro_profile
                    (sample_world pro_profile)).1.2).1
              pro_profile
              (check_usage_limit sample_clock pro_profile
                 (sample_world pro_profile)).1.1
              497 (JStr "none today") "Input should be a valid list")
    as (Hres & _ & Hdb).
  - reflexivity.
  - vm_compute. reflexivity.
  - vm_compute. reflexivity.
  - reflexivity.
  - split; [exact Hres | exact Hdb].
Defined.

Lemma at_most_one_provider_call_witness :
  provider_log (generate_responses sample_clock provider_prose
                  sample_json_loads strict_validate (sample_review 5) "u1"
                  (sample_world at_limit_profile)).1
  = [].
Proof.
  destruct (at_most_one_provider_call sample_clock provider_prose
              sample_json_loads strict_validate (sample_review 5) "u1"
              (sample_world at_limit_profile)) as [_ Hnone].
  rewrite (Hnone (HTTPException 429 quota_message));
    [reflexivity | reflexivity | discriminate | discriminate].
Defined.

Lemma successful_request_effect_witness :
  ∃ (out : ResponseOutput) (stored : UserProfile),
    (generate_responses sample_clock provider_prose sample_json_loads
       strict_validate (sample_review 5) "u1" (sample_world pro_profile)).2
    = Ok out
    ∧ users_db (generate_responses sample_clock provider_prose
                  sample_json_loads strict_validate (sample_review 5) "u1"
                  (sample_world pro_profile)).1 !! "u1" = Some stored
    ∧ usage_count stored = 4
    ∧ usage_remaining out = 500 - usage_count stored.
Proof.
  destruct (successful_request_effect sample_clock provider_prose
              sample_json_loads strict_validate (sample_review 5) "u1"
              (sample_world pro_profile) pro_profile
              {| responses :=
                   fallback_responses 5 "Cafe Luna" (Some "- The Team")
                     "positive";
                 usage_remaining := 496 |})
    as (stored & policy & Hstored & Hpol & _ & Hcount & Hrem & _).
  - reflexivity.
  - vm_compute. reflexivity.
  - eexists _, stored. split; [vm_compute; reflexivity|].
    split; [exact Hstored|]. split; [exact Hcount|].
    vm_compute in Hpol. injection Hpol as <-. exact Hrem.
Defined.

Lemma unreadable_reset_date_fails_request_witness :
  usage_count unreadable_profile = 10
  ∧ generate_responses sample_clock provider_prose sample_json_loads
      strict_validate (sample_review 5) "u1" (sample_world unreadable_profile)
    = (sample_world unreadable_profile,
       Raise (Unhandled ValueError "Invalid isoformat string: 'next month'")).
Proof.
  split; [reflexivity|].
  apply (unreadable_reset_date_fails_request sample_clock provider_prose
           sample_json_loads strict_validate (sample_review 5) "u1"
           (sample_world unreadable_profile) unreadable_profile
           {| monthly_limit := 10; response_count := 3 |});
    reflexivity.
Defined.

(** ** The quota over a run of requests *)

Section QuotaOverRequests.

Variable clock : nat -> Z.
Variable provider : nat -> string -> result py_error string.
Variable json_loads : string -> result py_error json.
Variable validate_responses : json -> result string (list dict).

Abbreviation generate' := (generate_ai_responses provider json_loads).
Abbreviation endpoint' :=
  (generate_responses clock provider json_loads validate_responses).
Abbreviation run' :=
  (run_requests clock provider json_loads validate_responses).

Abbreviation always_succeeds :=
  (generation_always_succeeds provider json_loads validate_responses).

Lemma generate_time_reads (review : ReviewInput) (profile : UserProfile)
    (w : World) :
  time_reads (generate' review profile w).1 = time_reads w.
Proof.
  unfold generate_ai_responses, try_generate, call_provider.
  destruct (TIER_LIMITS !! subscription_tier profile); [|done].
  destruct (provider _ _) as [text|e]; simpl.
  - destruct (json_loads _) as [parsed|e]; simpl.
    + by destruct (get_responses parsed) as [v|e];
        [|destruct (is_JSONDecodeError _)].
    + by destruct (is_JSONDecodeError _).
  - by destruct (is_JSONDecodeError _).
Qed.

(** One request of a user on a finite tier whose reset date is not due. *)
Lemma request_step (review : ReviewInput) (uid : string) (w : World)
    (user : UserProfile) (policy : TierPolicy) (d : Z) :
  always_succeeds →
  users_db w !! uid = Some user →
  TIER_LIMITS !! subscription_tier user = Some policy →
  monthly_limit policy ≠ -1 →
  usage_reset_date user = Some (Instant d) →
  clock (time_reads w) <= d →
  time_reads (endpoint' review uid w).1 = S (time_reads w)
  ∧ (usage_count user < monthly_limit policy →
     (∃ out : ResponseOutput,
        (endpoint' review uid w).2 = Ok out
        ∧ usage_remaining out
          = monthly_limit policy - usage_count user - 1)
     ∧ users_db (endpoint' review uid w).1 !! uid
       = Some (set_usage_count (usage_count user + 1) user))
  ∧ (monthly_limit policy <= usage_count user →
     (endpoint' review uid w).2 = Raise (HTTPException 429 quota_message)
     ∧ users_db (endpoint' review uid w).1 !! uid = Some user).
Proof.
  intros Hgen Hdb Htier Hfin Hdate Hle.
  assert (Hreset : reset_if_new_month clock user w
                   = (user, (datetime_now clock w).2, Ok tt)).
  { unfold reset_if_new_month. rewrite Hdate. simpl.
    destruct (Z.gtb_spec (clock (time_reads w)) d); [lia | done]. }
  pose proof (check_usage_limit_after_reset _ _ _ _ _ _ Htier Hreset) as Hc.
  destruct (Z.eqb_spec (monthly_limit policy) (-1)) as [|_]; [done|].
  simpl in Hc.
  destruct (Z.geb_spec (usage_count user) (monthly_limit policy)) as [Hge|Hlt].
  - unfold generate_responses. rewrite Hdb, Hc. simpl.
    split; [done|]. split; [lia|]. done.
  - rewrite (generate_responses_after_check _ _ _ _ _ _ _ _ _ _ _ Hdb Hc).
    destruct (Hgen review user (datetime_now clock w).2) as (rs & items & Hrs & Hv);
      [by eexists|].
    pose proof (generate_time_reads review user (datetime_now clock w).2) as Ht.
    destruct (generate' review user _) as [w2 g]. simpl in Hrs, Ht. subst g.
    cbv zeta. rewrite Hv. cbn [fst snd users_db set_users_db time_reads].
    split; [done|]. split; [|lia]. intros _. split.
    + eexists. split; [done|]. simpl. lia.
    + apply lookup_insert_eq.
Qed.

(** A user on a finite tier whose reset date does not fall due during the
    run, served by a generation that always succeeds: the request number
    [k] (from 0) is answered if the counter it finds, the initial one plus
    [k], is below the limit, and refused with 429 otherwise; the answers
    report the remaining quota counting down to 0; and the stored counter
    ends at the limit at most, unless it started above it. *)
Theorem quota_over_requests (reviews : list ReviewInput) (uid : string)
    (w : World) (user : UserProfile) (policy : TierPolicy) (d : Z) :
  always_succeeds →
  users_db w !! uid = Some user →
  TIER_LIMITS !! subscription_tier user = Some policy →
  monthly_limit policy ≠ -1 →
  usage_reset_date user = Some (Instant d) →
  (∀ n : nat,
     (time_reads w <= n < time_reads w + length reviews)%nat →
     clock n <= d) →
  (∀ (k : nat) (answer : result exn ResponseOutput),
     (run' reviews uid w).2 !! k = Some answer →
     if decide (usage_count user + Z.of_nat k < monthly_limit policy)
     then ∃ out : ResponseOutput,
            answer = Ok out
            ∧ usage_remaining out
              = monthly_limit policy - (usage_count user + Z.of_nat k) - 1
     else answer = Raise (HTTPException 429 quota_message))
  ∧ users_db (run' reviews uid w).1 !! uid
    = Some (set_usage_count
              (Z.max (usage_count user)
                 (Z.min (usage_count user + Z.of_nat (length reviews))
                    (monthly_limit policy)))
              user).
Proof.
  intros Hgen. revert w user.
  induction reviews as [|review rest IH]; intros w user Hdb Htier Hfin Hdate Hclock.
  - simpl. split; [intros k answer Hk; by destruct k|].
    rewrite Hdb. f_equal. destruct user. unfold set_usage_count. simpl.
    f_equal. lia.
  - assert (Hnow : clock (time_reads w) <= d)
      by (apply Hclock; simpl; lia).
    destruct (request_step review uid w user policy d Hgen Hdb Htier Hfin
                Hdate Hnow) as (Htime & Hunder & Hover).
    simpl.
    destruct (endpoint' review uid w) as [w1 answer1] eqn:E1.
    cbn [fst snd] in Htime, Hunder, Hover.
    destruct (run' rest uid w1) as [w2 answers] eqn:E2.
    destruct (Z.lt_ge_cases (usage_count user) (monthly_limit policy))
      as [Hlt|Hge].
    + destruct (Hunder Hlt) as [(out & -> & Hrem) Hdb1].
      destruct (IH w1 (set_usage_count (usage_count user + 1) user)
                  Hdb1 Htier Hfin Hdate) as [Hans Hfinal].
      { intros n Hn. apply Hclock. simpl. lia. }
      rewrite E2 in Hans, Hfinal. cbn [fst snd] in Hans, Hfinal. split.
      * intros [|k] answer Hk; simpl in Hk.
        -- injection Hk as <-. rewrite Z.add_0_r.
           destruct (decide _); [|lia]. exists out. split; [done|]. lia.
        -- specialize (Hans k answer Hk). simpl in Hans.
           destruct (decide (usage_count user + 1 + Z.of_nat k < _)),
             (decide (usage_count user + Z.of_nat (S k) < _)); try lia.
           ++ destruct Hans as (o & -> & Ho). exists o. split; [done|]. lia.
           ++ done.
      * cbn [fst]. rewrite Hfinal. f_equal. destruct user.
        unfold set_usage_count. simpl. f_equal. simpl in Hlt. lia.
    + destruct (Hover Hge) as [-> Hdb1].
      destruct (IH w1 user Hdb1 Htier Hfin Hdate) as [Hans Hfinal].
      { intros n Hn. apply Hclock. simpl. lia. }
      rewrite E2 in Hans, Hfinal. cbn [fst snd] in Hans, Hfinal. split.
      * intros [|k] answer Hk; simpl in Hk.
        -- injection Hk as <-. destruct (decide _); [lia | done].
        -- specialize (Hans k answer Hk).
           destruct (decide (usage_count user + Z.of_nat k < _)),
             (decide (usage_count user + Z.of_nat (S k) < _)); try lia.
           done.
      * cbn [fst]. rewrite Hfinal. f_equal. f_equal. simpl length. lia.
Qed.

End QuotaOverRequests.

Lemma sample_generation_always_succeeds :
  generation_always_succeeds provider_prose sample_json_loads strict_validate.
Proof.
  intros review profile w [policy Htier].
  eexists _, _. split.
  - apply (generate_ai_responses_unparseable provider_prose sample_json_loads
             review profile w policy
             "Sure! Here are three replies you could post."
             (PyError JSONDecodeError
                "Expecting value: line 1 column 1 (char 0)"));
      [exact Htier | reflexivity | vm_compute; reflexivity | reflexivity].
  - apply strict_validate_dicts.
Qed.

Lemma quota_over_requests_witness :
  usage_count near_limit_profile = 8
  ∧ (∀ answer : result exn ResponseOutput,
       (run_requests sample_clock provider_prose sample_json_loads
          strict_validate
          [sample_review 5; sample_review 1; sample_review 3; sample_review 4]
          "u1" (sample_world near_limit_profile)).2 !! 2%nat = Some answer →
       answer = Raise (HTTPException 429 quota_message))
  ∧ users_db (run_requests sample_clock provider_prose sample_json_loads
                strict_validate
                [sample_review 5; sample_review 1; sample_review 3;
                 sample_review 4]
                "u1" (sample_world near_limit_profile)).1 !! "u1"
    = Some (sample_profile "free" 10 (Some (Instant 1800000000000000))).
Proof.
  split; [reflexivity|].
  destruct (quota_over_requests sample_clock provider_prose sample_json_loads
              strict_validate
              [sample_review 5; sample_review 1; sample_review 3;
               sample_review 4]
              "u1" (sample_world near_limit_profile) near_limit_profile
              {| monthly_limit := 10; response_count := 3 |}
              1800000000000000)
    as [Hanswers Hfinal].
  - exact sample_generation_always_succeeds.
  - reflexivity.
  - reflexivity.
  - simpl. lia.
  - reflexivity.
  - intros n Hn. unfold sample_clock. simpl in Hn. lia.
  - split; [|exact Hfinal].
    intros answer Hk. exact (Hanswers 2%nat answer Hk).
Defined.

(** ** Upgrades *)



(** ** Registration and API keys *)

Lemma list_ascii_of_string_app (a b : string) :
  list_ascii_of_string (a +:+ b)
  = (list_ascii_of_string a ++ list_ascii_of_string b)%list.
Proof. induction a as [|c a IH]; simpl; [done | by rewrite IH]. Qed.

Lemma hex_length (bs : list ascii) :
  length (list_ascii_of_string (hex bs)) = (2 * length bs)%nat.
Proof.
  unfold hex. rewrite list_ascii_of_string_of_list_ascii.
  induction bs as [|b bs IH]; simpl; [done | lia].
Qed.

Lemma new_api_key_inj_helper (uid uid' : string) (bs bs' : list ascii) :
  length bs = length bs' →
  new_api_key uid bs = new_api_key uid' bs' →
  uid = uid' ∧ hex bs = hex bs'.
Proof.
  intros Hlen Hkey. unfold new_api_key in Hkey.
  apply (f_equal list_ascii_of_string) in Hkey.
  rewrite !list_ascii_of_string_app in Hkey.
  apply app_inv_head in Hkey.
  apply app_inj_2 in Hkey as [Huid Hrest];
    [|rewrite !length_app, !hex_length; lia].
  apply app_inv_head in Hrest.
  apply (f_equal string_of_list_ascii) in Huid, Hrest.
  by rewrite !string_of_list_ascii_of_string in Huid, Hrest.
Qed.

(** A key determines the user id it was issued for: two keys built from
    the same number of random bytes are equal only if the user ids, and the
    hexadecimal parts, are equal, although a user id may itself contain
    underscores; so keys issued for different users never clash. *)
Theorem new_api_key_inj (uid uid' : string) (bs bs' : list ascii) :
  length bs = length bs' →
  (new_api_key uid bs = new_api_key uid' bs' → uid = uid' ∧ hex bs = hex bs')
  ∧ (uid ≠ uid' → new_api_key uid bs ≠ new_api_key uid' bs').
Proof.
  intros Hlen. split.
  - by apply new_api_key_inj_helper.
  - intros Hne Hkey. by apply new_api_key_inj_helper in Hkey as [? _].
Qed.

Lemma new_api_key_inj_witness :
  new_api_key "a_b" sixteen_bytes ≠ new_api_key "a" sixteen_bytes.
Proof.
  apply (new_api_key_inj "a_b" "a" sixteen_bytes sixteen_bytes eq_refl).
  discriminate.
Defined.

(** The key returned by register_user authenticates as the registered user
    id, and get_profile then returns the profile exactly as submitted, with
    the tier and the counter the client sent. *)
Theorem register_then_authenticate (profile : UserProfile)
    (random_bytes : list ascii) (s : Server) :
  verify_api_key (api_keys_db (register_user profile random_bytes s).1)
    (reg_api_key (register_user profile random_bytes s).2)
  = Ok (user_id profile)
  ∧ get_profile (user_id profile)
      (world (register_user profile random_bytes s).1)
    = Ok profile.
Proof.
  unfold register_user, verify_api_key, get_profile. simpl.
  by rewrite !lookup_insert_eq.
Qed.

(** Registration never revokes or redirects a key: with a table of
    well-formed keys and sixteen fresh random bytes, every key issued before
    still resolves to the same user id afterwards, and the table stays
    well formed. *)
Theorem register_keeps_issued_keys (profile : UserProfile)
    (random_bytes : list ascii) (s : Server) :
  keys_well_formed (api_keys_db s) →
  length random_bytes = 16%nat →
  (∀ (k uid : string),
     api_keys_db s !! k = Some uid →
     verify_api_key (api_keys_db (register_user profile random_bytes s).1) k
     = Ok uid)
  ∧ keys_well_formed (api_keys_db (register_user profile random_bytes s).1).
Proof.
  intros Hwf Hlen. unfold register_user, verify_api_key. simpl. split.
  - intros k uid Hk.
    destruct (decide (new_api_key (user_id profile) random_bytes = k))
      as [<-|Hne].
    + rewrite lookup_insert_eq.
      destruct (Hwf _ uid Hk) as (bs & Hbs & Heq).
      apply new_api_key_inj_helper in Heq as [Huid _]; [|lia].
      by rewrite Huid.
    + rewrite lookup_insert_ne by done. by rewrite Hk.
  - intros k uid Hk.
    destruct (decide (new_api_key (user_id profile) random_bytes = k))
      as [<-|Hne].
    + rewrite lookup_insert_eq in Hk. injection Hk as <-.
      by exists random_bytes.
    + rewrite lookup_insert_ne in Hk by done. by apply Hwf.
Qed.

Lemma register_keeps_issued_keys_witness :
  verify_api_key
    (api_keys_db
       (register_user enterprise_profile sixteen_bytes
          (register_user pro_profile sixteen_bytes empty_server).1).1)
    (reg_api_key (register_user pro_profile sixteen_bytes empty_server).2)
  = Ok "u1".
Proof.
  assert (Hempty : keys_well_formed (api_keys_db empty_server)).
  { intros k uid Hk. simpl in Hk. by rewrite lookup_empty in Hk. }
  destruct (register_keeps_issued_keys pro_profile sixteen_bytes empty_server
              Hempty eq_refl) as [_ Hwf].
  destruct (register_keeps_issued_keys enterprise_profile sixteen_bytes
              (register_user pro_profile sixteen_bytes empty_server).1
              Hwf eq_refl) as [Hkeep _].
  apply Hkeep. vm_compute. reflexivity.
Defined.

(** Registering again under a user id that already has a key replaces the
    stored profile by the submitted one, tier and counter included, and the
    old key goes on authenticating as that user: the holder of a key can
    overwrite the counter and the tier of the account. *)
Theorem re_registration_replaces_profile (profile : UserProfile)
    (random_bytes : list ascii) (s : Server) (k : string) :
  api_keys_db s !! k = Some (user_id profile) →
  verify_api_key (api_keys_db (register_user profile random_bytes s).1) k
  = Ok (user_id profile)
  ∧ get_profile (user_id profile)
      (world (register_user profile random_bytes s).1)
    = Ok profile.
Proof.
  intros Hk. unfold register_user, verify_api_key, get_profile. simpl.
  split; [|by rewrite lookup_insert_eq].
  destruct (decide (new_api_key (user_id profile) random_bytes = k))
    as [<-|Hne].
  - by rewrite lookup_insert_eq.
  - rewrite lookup_insert_ne by done. by rewrite Hk.
Qed.

Lemma re_registration_replaces_profile_witness :
  get_profile "u1"
    (world (register_user at_limit_profile sixteen_bytes empty_server).1)
  = Ok at_limit_profile
  ∧ verify_api_key
      (api_keys_db
         (register_user (sample_profile "enterprise" 0 None)
            (rev sixteen_bytes)
            (register_user at_limit_profile sixteen_bytes empty_server).1).1)
      (new_api_key "u1" sixteen_bytes)
    = Ok "u1"
  ∧ get_profile "u1"
      (world
         (register_user (sample_profile "enterprise" 0 None)
            (rev sixteen_bytes)
            (register_user at_limit_profile sixteen_bytes empty_server).1).1)
    = Ok (sample_profile "enterprise" 0 None).
Proof.
  split; [reflexivity|].
  apply (re_registration_replaces_profile (sample_profile "enterprise" 0 None)
           (rev sixteen_bytes)
           (register_user at_limit_profile sixteen_bytes empty_server).1
           (new_api_key "u1" sixteen_bytes)).
  vm_compute. reflexivity.
Defined.

(** register_user stores whatever tier string the client sends. If the
    table does not know it, registration still succeeds, and afterwards
    every generate request of that user, and get_usage, fail with an
    unhandled KeyError (status 500) before any provider call. *)
Theorem registered_unknown_tier_breaks_requests (clock : nat -> Z)
    (provider : nat -> string -> result py_error string)
    (json_loads : string -> result py_error json)
    (validate_responses : json -> result string (list dict))
    (profile : UserProfile) (random_bytes : list ascii) (s : Server)
    (review : ReviewInput) :
  TIER_LIMITS !! subscription_tier profile = None →
  reg_tier (register_user profile random_bytes s).2
  = subscription_tier profile
  ∧ generate_responses clock provider json_loads validate_responses review
      (user_id profile) (world (register_user profile random_bytes s).1)
    = (world (register_user profile random_bytes s).1,
       Raise (Unhandled KeyError (subscription_tier profile)))
  ∧ get_usage (user_id profile) (world (register_user profile random_bytes s).1)
    = Raise (Unhandled KeyError (subscription_tier profile)).
Proof.
  intros Htier. split; [done|].
  unfold generate_responses, get_usage, check_usage_limit, register_user.
  cbn [fst snd world users_db set_users_db].
  rewrite !lookup_insert_eq. by rewrite Htier.
Qed.

Lemma registered_unknown_tier_breaks_requests_witness :
  (generate_responses sample_clock provider_prose sample_json_loads
     strict_validate (sample_review 5) "u1"
     (world (register_user (sample_profile "platinum" 0 None) sixteen_bytes
               empty_server).1)).2
  = Raise (Unhandled KeyError "platinum").
Proof.
  destruct (registered_unknown_tier_breaks_requests sample_clock
              provider_prose sample_json_loads strict_validate
              (sample_profile "platinum" 0 None) sixteen_bytes empty_server
              (sample_review 5)) as (_ & Hgen & _).
  - reflexivity.
  - exact (f_equal snd Hgen).
Defined.

(** ** Usage statistics and profile updates *)

Section UsageStatistics.

Variable clock : nat -> Z.
Variable provider : nat -> string -> result py_error string.
Variable json_loads : string -> result py_error json.
Variable validate_responses : json -> result string (list dict).

Abbreviation endpoint' :=
  (generate_responses clock provider json_loads validate_responses).

(** What an answered request did, in terms of the check it went through. *)
Lemma generate_responses_ok_inv (review : ReviewInput) (uid : string)
    (w : World) (user : UserProfile) (out : ResponseOutput) :
  users_db w !! uid = Some user →
  (endpoint' review uid w).2 = Ok out →
  ∃ (user1 : UserProfile) (w1 : World) (remaining : Z),
    check_usage_limit clock user w = (user1, w1, Ok remaining)
    ∧ users_db (endpoint' review uid w).1 !! uid
      = Some (set_usage_count (usage_count user1 + 1) user1)
    ∧ usage_remaining out = remaining - 1.
Proof.
  intros Hdb. unfold generate_responses. rewrite Hdb.
  destruct (check_usage_limit clock user w) as [[user1 w1] [remaining|e]];
    [|done].
  destruct (generate_ai_responses _ _ review user1 w1) as [w2 [rs|e]]; [|done].
  cbv zeta. destruct (validate_responses rs) as [items|msg]; [|done].
  cbn [fst snd users_db set_users_db]. intros [= <-].
  exists user1, w1, remaining. split; [done|].
  split; [apply lookup_insert_eq | done].
Qed.

(** get_usage right after an answered request agrees with the answer: on a
    finite tier it reports the limit as a number, and the limit minus the
    reported counter is the usage_remaining the client was sent; on the
    unlimited tier it reports the text "unlimited" where the answer said
    998. *)
Theorem get_usage_agrees_with_answer (review : ReviewInput) (uid : string)
    (w : World) (user : UserProfile) (policy : TierPolicy)
    (out : ResponseOutput) :
  users_db w !! uid = Some user →
  TIER_LIMITS !! subscription_tier user = Some policy →
  (endpoint' review uid w).2 = Ok out →
  ∃ stats : UsageStats,
    get_usage uid (endpoint' review uid w).1 = Ok stats
    ∧ stats_tier stats = subscription_tier user
    ∧ (monthly_limit policy ≠ -1 →
       stats_monthly_limit stats = JInt (monthly_limit policy)
       ∧ monthly_limit policy - stats_usage_count stats = usage_remaining out)
    ∧ (monthly_limit policy = -1 →
       stats_monthly_limit stats = JStr "unlimited"
       ∧ usage_remaining out = 998).
Proof.
  intros Hdb Htier Hok.
  destruct (generate_responses_ok_inv review uid w user out Hdb Hok)
    as (user1 & w1 & remaining & Hc & Hstored & Hrem).
  destruct (check_usage_limit_frame _ _ _ _ _ _ Hc) as (Ht & _).
  pose proof (check_usage_limit_ok_inv _ _ _ _ _ _ Hc) as Hreset.
  rewrite (check_usage_limit_after_reset _ _ _ _ _ _ Htier Hreset) in Hc.
  unfold get_usage. rewrite Hstored. simpl. rewrite Ht, Htier.
  eexists. split; [done|]. simpl. split; [done|].
  destruct (Z.eqb_spec (monthly_limit policy) (-1)) as [Heq|Hne]; simpl in *.
  - injection Hc as <-. split; [done|]. intros _. split; [done | lia].
  - destruct (Z.geb_spec (usage_count user1) (monthly_limit policy));
      [done|]. injection Hc as <-. split; [|done]. intros _.
    split; [done | lia].
Qed.

End UsageStatistics.

Lemma get_usage_agrees_with_answer_witness :
  ∃ stats : UsageStats,
    get_usage "u1"
      (generate_responses sample_clock provider_prose sample_json_loads
         strict_validate (sample_review 5) "u1" (sample_world pro_profile)).1
    = Ok stats
    ∧ stats_monthly_limit stats = JInt 500
    ∧ 500 - stats_usage_count stats = 496.
Proof.
  destruct (get_usage_agrees_with_answer sample_clock provider_prose
              sample_json_loads strict_validate (sample_review 5) "u1"
              (sample_world pro_profile) pro_profile
              {| monthly_limit := 500; response_count := 3 |}
              {| responses :=
                   fallback_responses 5 "Cafe Luna" (Some "- The Team")
                     "positive";
                 usage_remaining := 496 |})
    as (stats & Hget & _ & Hfin & _).
  - reflexivity.
  - reflexivity.
  - vm_compute. reflexivity.
  - exists stats. split; [exact Hget|]. apply Hfin. simpl. lia.
Defined.

(** The fields a profile update may not touch. *)
Lemma assign_field_keeps_account (field : string) (v : json)
    (u u' : UserProfile) :
  assign_field field v u = Some u' →
  user_id u' = user_id u
  ∧ subscription_tier u' = subscription_tier u
  ∧ usage_count u' = usage_count u
  ∧ usage_reset_date u' = usage_reset_date u.
Proof.
  unfold assign_field.
  repeat (destruct (String.eqb field _);
          [destruct v; intros [= <-]; done|]).
  by intros [= <-].
Qed.

Lemma update_fields_keep_account (updates : dict) (fields : list string)
    (u u' : UserProfile) :
  fold_left (update_field updates) fields (Some u) = Some u' →
  user_id u' = user_id u
  ∧ subscription_tier u' = subscription_tier u
  ∧ usage_count u' = usage_count u
  ∧ usage_reset_date u' = usage_reset_date u.
Proof.
  revert u. induction fields as [|f fields IH]; intros u; simpl.
  - by intros [= <-].
  - destruct (dict_get f updates) as [v|]; [|apply IH].
    destruct (assign_field f v u) as [u1|] eqn:E.
    + intros H. destruct (IH _ H) as (-> & -> & -> & ->).
      by apply assign_field_keeps_account in E.
    + intros H. exfalso. clear -H.
      induction fields as [|g fields IHf]; simpl in H; [done | auto].
Qed.

(** update_profile cannot change the account side of a profile: whatever
    keys the request carries, "subscription_tier" and "usage_count"
    included, the stored user id, tier, counter and reset date are the same
    afterwards, and the answer carries the stored profile. *)
Theorem update_profile_keeps_account (updates : dict) (uid : string)
    (w w' : World) (user : UserProfile)
    (r : result exn (string * UserProfile)) :
  users_db w !! uid = Some user →
  update_profile updates uid w = Some (w', r) →
  ∃ stored : UserProfile,
    users_db w' !! uid = Some stored
    ∧ r = Ok ("Profile updated", stored)
    ∧ user_id stored = user_id user
    ∧ subscription_tier stored = subscription_tier user
    ∧ usage_count stored = usage_count user
    ∧ usage_reset_date stored = usage_reset_date user.
Proof.
  intros Hdb. unfold update_profile. rewrite Hdb.
  destruct (fold_left _ _ _) as [updated|] eqn:E; [|done].
  intros [= <- <-]. exists updated.
  split; [apply lookup_insert_eq|]. split; [done|].
  by apply (update_fields_keep_account updates allowed_fields).
Qed.

Lemma update_profile_keeps_account_witness :
  ∃ stored : UserProfile,
    users_db (set_users_db
                (<["u1" := set_signature None
                             (set_tone "casual" at_limit_profile)]>
                   (users_db (sample_world at_limit_profile)))
                (sample_world at_limit_profile)) !! "u1" = Some stored
    ∧ tone stored = "casual"
    ∧ subscription_tier stored = "free"
    ∧ usage_count stored = 10.
Proof.
  destruct (update_profile_keeps_account sample_updates "u1"
              (sample_world at_limit_profile)
              (set_users_db
                 (<["u1" := set_signature None
                              (set_tone "casual" at_limit_profile)]>
                    (users_db (sample_world at_limit_profile)))
                 (sample_world at_limit_profile))
              at_limit_profile
              (Ok ("Profile updated",
                   set_signature None (set_tone "casual" at_limit_profile))))
    as (stored & Hstored & Hr & _ & Htier & Hcount & _).
  - reflexivity.
  - reflexivity.
  - exists stored. split; [exact Hstored|].
    split; [by injection Hr as <-|]. split; [exact Htier | exact Hcount].
Defined.

(** ** Cleaning the reply *)

(** Where the first character of [old] does not occur, [replace] changes
    nothing. *)
Lemma replace_from_skips (c0 : ascii) (old' new s t : list ascii) :
  c0 ∉ s →
  replace_from (c0 :: old') new O (s ++ t)
  = (s ++ replace_from (c0 :: old') new O t)%list.
Proof.
  induction s as [|c s IH]; intros Hnot; [done|].
  apply not_elem_of_cons in Hnot as [Hne Hnot].
  cbn [app replace_from starts_with].
  destruct (Ascii.eqb_spec c0 c) as [->|_]; [done|].
  cbn [andb]. by rewrite IH.
Qed.

Lemma replace_from_absent (c0 : ascii) (old' new s : list ascii) :
  c0 ∉ s → replace_from (c0 :: old') new O s = s.
Proof.
  intros Hnot.
  pose proof (replace_from_skips c0 old' new s [] Hnot) as H.
  by rewrite !app_nil_r in H.
Qed.

Lemma fence_lists (inner : list ascii) :
  "`"%char ∉ inner →
  replace_from (list_ascii_of_string "```") [] O
    (replace_from (list_ascii_of_string "```json") [] O inner) = inner
  ∧ replace_from (list_ascii_of_string "```") [] O
      (replace_from (list_ascii_of_string "```json") [] O
         (list_ascii_of_string "```json" ++ inner
          ++ list_ascii_of_string "```"))
    = inner
  ∧ replace_from (list_ascii_of_string "```") [] O
      (replace_from (list_ascii_of_string "```json") [] O
         (list_ascii_of_string "```" ++ (nl_char :: inner)
          ++ list_ascii_of_string "```"))
    = nl_char :: inner.
Proof.
  intros Hnot.
  assert (Hnot' : "`"%char ∉ nl_char :: inner).
  { apply not_elem_of_cons. split; [discriminate | done]. }
  split; [|split].
  - simpl. rewrite (replace_from_absent "`"%char _ [] inner) by done.
    by rewrite (replace_from_absent "`"%char _ [] inner).
  - simpl. rewrite replace_from_skips by done. simpl.
    rewrite replace_from_skips by done. simpl. by rewrite app_nil_r.
  - simpl. f_equal. rewrite replace_from_skips by done. simpl.
    rewrite replace_from_skips by done. simpl. by rewrite app_nil_r.
Qed.

(** A reply without backquotes is only stripped; a reply wrapped in a
    fence, opened by three backquotes with or without the word json and
    closed by three backquotes, each on a line of its own, is cleaned to
    what stripping the lines between the markers gives. *)
Theorem clean_removes_fence (body : string) :
  "`"%char ∉ list_ascii_of_string body →
  clean body = strip body
  ∧ clean ("```json" +:+ nl +:+ body +:+ nl +:+ "```")
    = strip (nl +:+ body +:+ nl)
  ∧ clean ("```" +:+ nl +:+ body +:+ nl +:+ "```")
    = strip (nl +:+ body +:+ nl).
Proof.
  intros Hbody.
  assert (Hinner : "`"%char ∉ (list_ascii_of_string body ++ [nl_char])%list).
  { apply not_elem_of_app. split; [done|].
    apply not_elem_of_cons. split; [discriminate | apply not_elem_of_nil]. }
  assert (Htext : list_ascii_of_string (nl +:+ body +:+ nl)
                  = nl_char :: (list_ascii_of_string body ++ [nl_char])%list).
  { by rewrite !list_ascii_of_string_app. }
  destruct (fence_lists (list_ascii_of_string body) Hbody) as (Hplain & _ & _).
  destruct (fence_lists (list_ascii_of_string body ++ [nl_char]) Hinner)
    as (_ & _ & Hbare).
  assert (Hinner' : "`"%char
                    ∉ nl_char :: (list_ascii_of_string body ++ [nl_char])%list).
  { apply not_elem_of_cons. split; [discriminate | done]. }
  destruct (fence_lists _ Hinner') as (_ & Hjson & _).
  unfold clean, replace. rewrite !list_ascii_of_string_of_list_ascii.
  change (list_ascii_of_string "") with (@nil ascii).
  split; [|split].
  - by rewrite Hplain, string_of_list_ascii_of_string.
  - f_equal. rewrite <- (string_of_list_ascii_of_string (nl +:+ body +:+ nl)).
    f_equal. rewrite Htext, <- Hjson at 1. f_equal. f_equal.
    rewrite !list_ascii_of_string_app. simpl. by rewrite <- !app_assoc.
  - f_equal. rewrite <- (string_of_list_ascii_of_string (nl +:+ body +:+ nl)).
    f_equal. rewrite Htext, <- Hbare at 1. f_equal. f_equal.
    rewrite !list_ascii_of_string_app. simpl. by rewrite <- !app_assoc.
Qed.

Lemma clean_removes_fence_witness :
  clean ("```json" +:+ nl +:+ "{}" +:+ nl +:+ "```") = "{}".
Proof.
  destruct (clean_removes_fence "{}") as (_ & Hjson & _).
  - intros Hin. apply list_elem_of_In in Hin. simpl in Hin.
    destruct Hin as [H|[H|[]]]; discriminate H.
  - rewrite Hjson. reflexivity.
Defined.

(** ** The reset as seen by a user at the limit *)

(** Once the clock has passed the stored reset date, the check lets the
    user through whatever the old counter was, and returns the whole quota
    of the tier (or 999 on the unlimited tier): a user refused at the limit
    is served again after the reset date. *)
Theorem reset_restores_full_quota (clock : nat -> Z) (user : UserProfile)
    (w : World) (policy : TierPolicy) (t : Z) :
  TIER_LIMITS !! subscription_tier user = Some policy →
  usage_reset_date user = Some (Instant t) →
  t < clock (time_reads w) →
  (check_usage_limit clock user w).2
  = Ok (if negb (monthly_limit policy =? -1)%Z
        then monthly_limit policy
        else 999).
Proof.
  intros Htier Hdate Hpast.
  destruct (reset_if_new_month_past clock user w t Hdate Hpast) as [Hu Hr].
  destruct (reset_if_new_month clock user w) as [[u1 w1] r] eqn:E.
  cbn [fst snd] in Hu, Hr. subst r u1.
  rewrite (check_usage_limit_after_reset _ _ _ _ _ _ Htier E).
  cbn [snd]. simpl usage_count.
  destruct (Z.eqb_spec (monthly_limit policy) (-1)) as [|Hfin]; [done|].
  pose proof (finite_limit_positive _ _ Htier Hfin). simpl.
  destruct (Z.geb_spec 0 (monthly_limit policy)); [lia|].
  f_equal. lia.
Qed.

Lemma reset_restores_full_quota_witness :
  usage_count (sample_profile "free" 10 (Some (Instant 0))) = 10
  ∧ (check_usage_limit sample_clock
       (sample_profile "free" 10 (Some (Instant 0)))
       (sample_world pro_profile)).2 = Ok 10.
Proof.
  split; [reflexivity|].
  apply (reset_restores_full_quota sample_clock
           (sample_profile "free" 10 (Some (Instant 0)))
           (sample_world pro_profile)
           {| monthly_limit := 10; response_count := 3 |} 0);
    [reflexivity | reflexivity | vm_compute; reflexivity].
Defined.
